(** * ControlFlow: the agent turn loop, tool assembly and orchestrator events

    A shallow embedding of [src/control_flow/agent.py] and
    [src/controlflow/events/orchestrator_events.py].

    Python objects that are mutated in place and shared by reference (task
    objects, [FunctionTool] descriptors) live in a store that is threaded
    through every operation; lists hold references into that store.  Code
    that can raise returns an [Outcome].  The collaborators the module
    calls but does not define (the model round trip, the sub-agent run,
    [json.dumps], the builtin [str]) are fields of one record of
    parameters.  The embedding covers [Agent], its tools and its run loop,
    [run_agent] and the event classes; [AgentHandler], which reports tool
    calls to Prefect, takes no part in them. *)

From Stdlib Require Import ZArith String Ascii List Bool Lia DecimalString.
From stdpp Require Import base option list strings gmap.
From Equations Require Import Equations.
Import ListNotations.
Local Open Scope string_scope.
Local Open Scope list_scope.
Local Open Scope Z_scope.

(** ** Python values, dictionaries and exceptions *)

Module Py.

(** The values that cross the tool boundary: tool arguments are decoded
    from JSON; [VEndRun] is the [EndRun()] object returned by [end_run]. *)
Inductive PyVal : Type :=
| VNone
| VBool (b : bool)
| VInt (z : Z)
| VStr (s : string)
| VEndRun.

(** Python truthiness ([if v:], [v or d]). *)
Definition truthy (v : PyVal) : bool :=
  match v with
  | VNone => false
  | VBool b => b
  | VInt z => negb (z =? 0)
  | VStr s => negb (String.eqb s "")
  | VEndRun => true
  end.

(** A [dict] with string keys, in insertion order. *)
Definition dict := list (string * PyVal).

Fixpoint dict_get (k : string) (d : dict) : option PyVal :=
  match d with
  | [] => None
  | (k', v) :: d' => if String.eqb k k' then Some v else dict_get k d'
  end.

Definition dict_mem (k : string) (d : dict) : bool :=
  match dict_get k d with Some _ => true | None => false end.

Definition dict_del (k : string) (d : dict) : dict :=
  List.filter (fun kv => negb (String.eqb k (fst kv))) d.

(** [d[k] = v]: an existing key keeps its position. *)
Fixpoint dict_set (k : string) (v : PyVal) (d : dict) : dict :=
  match d with
  | [] => [(k, v)]
  | (k', v') :: d' =>
      if String.eqb k k' then (k, v) :: d' else (k', v') :: dict_set k v d'
  end.

(** [{**a, **b}] *)
Definition dict_merge (a b : dict) : dict :=
  fold_left (fun acc kv => dict_set (fst kv) (snd kv) acc) b a.

(** [d.pop(k, default)] returns the value and the dictionary without [k]. *)
Definition dict_pop (k : string) (default : PyVal) (d : dict) : PyVal * dict :=
  (match dict_get k d with Some v => v | None => default end, dict_del k d).

Inductive PyExn : Type :=
| TypeError (msg : string)
| ValueError (arg : PyVal)
| ValidationError (msg : string)
| AttributeError (msg : string)
| ReferenceError (msg : string)
| EOFError
| EndRun
| RunError (msg : string).

Inductive Outcome (A : Type) : Type :=
| Return (a : A)
| Raise (e : PyExn).
Arguments Return {A} a.
Arguments Raise {A} e.

(** State and exceptions: a computation takes the store and gives an
    outcome with the store as the code left it. *)
Definition M (S A : Type) : Type := S -> Outcome A * S.

Definition ret {S A} (a : A) : M S A := fun s => (Return a, s).
Definition throw {S A} (e : PyExn) : M S A := fun s => (Raise e, s).
Definition bind {S A B} (c : M S A) (k : A -> M S B) : M S B :=
  fun s =>
    match c s with
    | (Return a, s') => k a s'
    | (Raise e, s') => (Raise e, s')
    end.
Definition get {S} : M S S := fun s => (Return s, s).
Definition modify {S} (f : S -> S) : M S unit := fun s => (Return tt, f s).

End Py.
Export Py.

Declare Scope py_scope.
Delimit Scope py_scope with py.
Notation "x <- c ;; k" := (bind c (fun x => k))
  (at level 100, c at next level, right associativity) : py_scope.
Notation "c ;;; k" := (bind c (fun _ => k))
  (at level 100, right associativity) : py_scope.
Local Open Scope py_scope.


(** ** Data model *)

(** Modelled from the spec: [TaskStatus] of [control_flow/task.py], which
    is not among the sources.  The template of the instructions compares
    [status.value] with ["completed"] and ["failed"]. *)
Inductive TaskStatus : Type := PENDING | COMPLETED | FAILED.

Definition status_value (s : TaskStatus) : string :=
  match s with
  | PENDING => "pending"
  | COMPLETED => "completed"
  | FAILED => "failed"
  end.

Definition status_eqb (a b : TaskStatus) : bool :=
  match a, b with
  | PENDING, PENDING | COMPLETED, COMPLETED | FAILED, FAILED => true
  | _, _ => false
  end.

(** The result type [T] of an [AITask[T]] ([cast] in [run_agent]). *)
Inductive PyType : Type := TyNone | TyStr | TyInt | TyBool.

(** Modelled from the spec: the fields of [AITask] (data model of the
    spec; [control_flow/task.py] is not among the sources). *)
Record AITask : Type := mkAITask {
  objective : string;
  status : TaskStatus;
  result : PyVal;
  error : option string;
  task_context : dict;
  task_instructions : option string;
  result_type : PyType
}.

(** Callables are closures: a code pointer and the values it captured.
    [Fn_def n] is a function defined by the caller, found in the table of
    definitions; [Fn_complete] and [Fn_fail] are the closures made by
    [task._create_complete_tool] and [task._create_fail_tool] over the task
    object [task]; [Fn_run] is the [_run] closure of [as_tool];
    [Fn_modified_fn] is [modified_fn] with its two captured defaults. *)
Inductive Callable : Type :=
| Fn_def (name : string)
| Fn_end_run
| Fn_talk_to_human
| Fn_complete (task : nat) (task_id : nat) (end_run : bool)
| Fn_fail (task : nat) (task_id : nat) (end_run : bool)
| Fn_run (assistant_name : string)
| Fn_modified_fn (original_fn : Callable) (tool : nat).

(** [AssistantTool]: a [FunctionTool] is a mutable object, named by its
    reference in the store; the other kinds carry no Python function. *)
Inductive AssistantTool : Type :=
| FunctionTool (ref : nat)
| CodeInterpreter
| Retrieval.

(** [Union[AssistantTool, Assistant, Callable]] *)
Inductive Tool : Type :=
| ToolObject (t : AssistantTool)
| ToolAssistant (a : Assistant)
| ToolCallable (f : Callable)
with Assistant : Type :=
| mkAssistant (name : string) (instructions : option string)
              (model : option string) (tools : list Tool).

Definition assistant_name (a : Assistant) : string :=
  let 'mkAssistant n _ _ _ := a in n.
Definition assistant_instructions (a : Assistant) : option string :=
  let 'mkAssistant _ i _ _ := a in i.
Definition assistant_model (a : Assistant) : option string :=
  let 'mkAssistant _ _ m _ := a in m.
Definition assistant_tools (a : Assistant) : list Tool :=
  let 'mkAssistant _ _ _ t := a in t.

(** Modelled from the spec: the fields of [AIFlow] that the agent reads
    ([control_flow/flow.py] is not among the sources). *)
Record AIFlow : Type := mkAIFlow {
  flow_tools : list Tool;
  flow_instructions : option string;
  flow_model : option string;
  flow_thread : nat;
  flow_assistant : option Assistant
}.

(** [Agent].  [tasks] holds references to task objects: membership is
    fixed at construction, the objects change during a run. *)
Record Agent : Type := mkAgent {
  tasks : list nat;
  flow : AIFlow;
  assistant : Assistant;
  tools : list Tool;
  context : dict;
  user_access : bool;
  system_access : bool;
  instructions : option string
}.

(** [tool.function] of a [FunctionTool] *)
Record Function : Type := mkFunction {
  fn_name : string;
  fn_description : option string;
  _python_fn : Callable
}.

Inductive ArtifactKind : Type := JsonArtifact | MarkdownArtifact | PythonArtifact.

Record Artifact : Type := mkArtifact {
  art_kind : ArtifactKind;
  art_key : string;
  art_data : list string;
  art_description : option string
}.

Inductive ThreadArg : Type :=
| ThreadOf (id : nat)
| ThreadValue (v : PyVal).

(** The arguments of one [Run(...)]: one model round trip. *)
Record RunRequest : Type := mkRunRequest {
  run_assistant : Assistant;
  run_thread : ThreadArg;
  run_instructions : string;
  run_tools : list AssistantTool;
  run_model : PyVal;
  run_extra : dict
}.

(** What [execute_openai_run] reads back from the finished run. *)
Record Run : Type := mkRun {
  messages : list string;
  steps : list string
}.

(** The store. [run_log] records every round trip that was started. *)
Record World : Type := mkWorld {
  task_objects : list AITask;
  tool_objects : list Function;
  artifacts : list Artifact;
  stdin : list string;
  stdout : list string;
  ctx_flow : option AIFlow;
  ctx_instructions : list string;
  run_log : list RunRequest
}.

Definition set_task_objects (f : list AITask -> list AITask) (w : World) : World :=
  mkWorld (f (task_objects w)) (tool_objects w) (artifacts w) (stdin w)
          (stdout w) (ctx_flow w) (ctx_instructions w) (run_log w).
Definition set_tool_objects (f : list Function -> list Function) (w : World) : World :=
  mkWorld (task_objects w) (f (tool_objects w)) (artifacts w) (stdin w)
          (stdout w) (ctx_flow w) (ctx_instructions w) (run_log w).
Definition add_artifact (a : Artifact) (w : World) : World :=
  mkWorld (task_objects w) (tool_objects w) (artifacts w ++ [a])%list (stdin w)
          (stdout w) (ctx_flow w) (ctx_instructions w) (run_log w).
Definition set_stdin (l : list string) (w : World) : World :=
  mkWorld (task_objects w) (tool_objects w) (artifacts w) l
          (stdout w) (ctx_flow w) (ctx_instructions w) (run_log w).
Definition print (s : string) (w : World) : World :=
  mkWorld (task_objects w) (tool_objects w) (artifacts w) (stdin w)
          (stdout w ++ [s])%list (ctx_flow w) (ctx_instructions w) (run_log w).
Definition set_run_log (l : list RunRequest) (w : World) : World :=
  mkWorld (task_objects w) (tool_objects w) (artifacts w) (stdin w)
          (stdout w) (ctx_flow w) (ctx_instructions w) l.

(** *** Call arguments and signatures *)

(** [f( *pos, **kw)] *)
Record Args : Type := mkArgs {
  pos : list PyVal;
  kw : dict
}.

(** A bound argument: a plain value, the tuple of [*args] or the dict of
    [**kwargs]. *)
Inductive ArgVal : Type :=
| AVal (v : PyVal)
| ATuple (vs : list PyVal)
| ADict (d : dict).

Definition BoundArguments := list (string * ArgVal).

Record Param : Type := mkParam {
  p_name : string;
  p_default : option PyVal
}.

Record Signature : Type := mkSignature {
  sig_params : list Param;
  sig_varargs : option string;
  sig_kwonly : list Param;
  sig_varkw : option string
}.

(** A function the caller defined: docstring, signature and body.  The
    body receives its parameters after defaults were applied. *)
Record PyDef : Type := mkPyDef {
  def_doc : option string;
  def_sig : Signature;
  def_body : BoundArguments -> World -> Outcome PyVal * World
}.

(** What the module takes from its surroundings: [settings], the
    caller's function definitions, the model round trip
    ([Run.run_async]), the run of a sub-agent behind [as_tool], and the
    validation of a value against a result type, the default [AIFlow()]
    and [Assistant()], and the builtins that turn values into text. *)
Record Collaborators : Type := mkCollaborators {
  max_agent_iterations : Z;
  settings_assistant_model : string;
  py_defs : string -> PyDef;
  Run_run_async : RunRequest -> World -> Outcome Run * World;
  sub_agent_run : string -> Args -> World -> Outcome PyVal * World;
  py_str : PyVal -> string;
  py_repr : PyVal -> string;
  coerce : PyType -> PyVal -> option PyVal;
  new_AIFlow : AIFlow;
  new_Assistant : Assistant;
  json_dumps : BoundArguments -> option string;
  str_arguments : BoundArguments -> string
}.

(** ** Binding call arguments to a signature *)

Definition LF : string := String "010" EmptyString.

Definition lines (l : list string) : string := String.concat LF l.

Definition arg_lookup (n : string) (b : BoundArguments) : option ArgVal :=
  snd <$> List.find (fun x => String.eqb n (fst x)) b.

(** Positional-or-keyword parameters: filled from the positional
    arguments first, then by name.  [None] is a [TypeError] (two values
    for one parameter, or a parameter without value or default). *)
Fixpoint bind_positional (ps : list Param) (ps_pos : list PyVal) (ps_kw : dict)
  : option (BoundArguments * list PyVal * dict) :=
  match ps with
  | [] => Some ([], ps_pos, ps_kw)
  | p :: ps' =>
      match ps_pos with
      | v :: pos' =>
          if dict_mem (p_name p) ps_kw then None
          else
            match bind_positional ps' pos' ps_kw with
            | Some (b, extra, kw') => Some ((p_name p, AVal v) :: b, extra, kw')
            | None => None
            end
      | [] =>
          match dict_get (p_name p) ps_kw with
          | Some v =>
              match bind_positional ps' [] (dict_del (p_name p) ps_kw) with
              | Some (b, extra, kw') => Some ((p_name p, AVal v) :: b, extra, kw')
              | None => None
              end
          | None =>
              match p_default p with
              | Some _ => bind_positional ps' [] ps_kw
              | None => None
              end
          end
      end
  end.

Fixpoint bind_kwonly (ps : list Param) (ps_kw : dict)
  : option (BoundArguments * dict) :=
  match ps with
  | [] => Some ([], ps_kw)
  | p :: ps' =>
      match dict_get (p_name p) ps_kw with
      | Some v =>
          match bind_kwonly ps' (dict_del (p_name p) ps_kw) with
          | Some (b, kw') => Some ((p_name p, AVal v) :: b, kw')
          | None => None
          end
      | None =>
          match p_default p with
          | Some _ => bind_kwonly ps' ps_kw
          | None => None
          end
      end
  end.

(** [inspect.signature(f).bind( *pos, **kw).arguments]: the arguments that
    were passed, in parameter order, defaults not filled in; [None] when
    [bind] raises [TypeError]. *)
Definition sig_bind (sg : Signature) (a : Args) : option BoundArguments :=
  match bind_positional (sig_params sg) (pos a) (kw a) with
  | None => None
  | Some (b1, extra, kw1) =>
      match extra, sig_varargs sg with
      | _ :: _, None => None
      | _, _ =>
          match bind_kwonly (sig_kwonly sg) kw1 with
          | None => None
          | Some (b2, kw2) =>
              match kw2, sig_varkw sg with
              | _ :: _, None => None
              | _, _ =>
                  Some (b1
                        ++ match extra, sig_varargs sg with
                           | _ :: _, Some n => [(n, ATuple extra)]
                           | _, _ => []
                           end
                        ++ b2
                        ++ match kw2, sig_varkw sg with
                           | _ :: _, Some n => [(n, ADict kw2)]
                           | _, _ => []
                           end)%list
              end
          end
      end
  end.

(** The parameters as the body of the function sees them. *)
Definition apply_defaults (sg : Signature) (b : BoundArguments) : BoundArguments :=
  let param p :=
    match arg_lookup (p_name p) b with
    | Some v => [(p_name p, v)]
    | None =>
        match p_default p with
        | Some d => [(p_name p, AVal d)]
        | None => []
        end
    end in
  let star (o : option string) (empty : ArgVal) :=
    match o with
    | Some n => [(n, default empty (arg_lookup n b))]
    | None => []
    end in
  (flat_map param (sig_params sg) ++ star (sig_varargs sg) (ATuple [])
   ++ flat_map param (sig_kwonly sg) ++ star (sig_varkw sg) (ADict []))%list.

Definition arg_value (n : string) (b : BoundArguments) : PyVal :=
  match arg_lookup n b with
  | Some (AVal v) => v
  | _ => VNone
  end.

(** ** Calling a tool function *)

Section Calls.

Variable E : Collaborators.

(** [str(v)]: a string is its own text. *)
Definition str_of (v : PyVal) : string :=
  match v with
  | VStr s => s
  | _ => py_str E v
  end.

Definition str_option (o : option string) : string :=
  match o with
  | Some s => s
  | None => py_str E VNone
  end.

Definition str_nat (n : nat) : string := py_str E (VInt (Z.of_nat n)).

Definition required (n : string) : Param := mkParam n None.
Definition optional (n : string) (d : PyVal) : Param := mkParam n (Some d).

(** [inspect.signature(f)].  The two defaults of [modified_fn] are a
    function and a tool object; [sig_bind] only asks whether a default
    exists. *)
Definition signature (f : Callable) : Signature :=
  match f with
  | Fn_def n => def_sig (py_defs E n)
  | Fn_end_run => mkSignature [] None [] None
  | Fn_talk_to_human =>
      mkSignature [required "message"; optional "get_response" (VBool true)]
                  None [] None
  | Fn_complete _ _ _ => mkSignature [required "result"] None [] None
  | Fn_fail _ _ _ => mkSignature [required "message"] None [] None
  | Fn_run _ =>
      mkSignature [required "message"; optional "context" VNone] None [] None
  | Fn_modified_fn _ _ =>
      mkSignature [] (Some "args")
                  [optional "original_fn" VNone; optional "tool" VNone]
                  (Some "kwargs")
  end.

Definition type_error : PyExn := TypeError "arguments do not match the signature".

(** [talk_to_human] *)
Definition talk_to_human (message get_response : PyVal) : M World PyVal :=
  modify (print (str_of message)) ;;;
  if truthy get_response then
    (* response = input("> ") *)
    modify (print "> ") ;;;
    w <- get ;;
    match stdin w with
    | [] => throw EOFError
    | response :: rest => modify (set_stdin rest) ;;; ret (VStr response)
    end
  else ret (VStr "Message sent to user").

(** [end_run] *)
Definition end_run : M World PyVal := ret VEndRun.

Definition update_task (task : nat) (f : AITask -> AITask) : M World unit :=
  modify (set_task_objects (alter f task)).

(** Modelled from the spec: the tool made by [task._create_complete_tool]
    ([control_flow/task.py] is not among the sources).  It accepts a result
    value, fails with [ValidationError] when the value cannot be coerced
    to the task's type, otherwise sets [status = COMPLETED] and the
    coerced [result]; with [end_run] it then raises the signal that ends
    the run. *)
Definition complete_tool (task : nat) (end_run : bool) (value : PyVal)
  : M World PyVal :=
  w <- get ;;
  match task_objects w !! task with
  | None => throw (ReferenceError "task")
  | Some t =>
      match coerce E (result_type t) value with
      | None => throw (ValidationError "result")
      | Some v =>
          update_task task (fun t =>
            mkAITask (objective t) COMPLETED v (error t) (task_context t)
                     (task_instructions t) (result_type t)) ;;;
          if end_run then throw EndRun else ret VNone
      end
  end.

(** Modelled from the spec: the tool made by [task._create_fail_tool]; same
    shape, it sets [status = FAILED] and [error] to the message. *)
Definition fail_tool (task : nat) (end_run : bool) (message : PyVal)
  : M World PyVal :=
  w <- get ;;
  match task_objects w !! task with
  | None => throw (ReferenceError "task")
  | Some _ =>
      update_task task (fun t =>
        mkAITask (objective t) FAILED (result t) (Some (str_of message))
                 (task_context t) (task_instructions t) (result_type t)) ;;;
      if end_run then throw EndRun else ret VNone
  end.

(** [TOOL_CALL_FUNCTION_RESULT_TEMPLATE.format(...)] *)
Definition TOOL_CALL_FUNCTION_RESULT_TEMPLATE
  (name description args result : string) : string :=
  lines [ "## Tool call: " +:+ name;
          "";
          "**Description:** " +:+ description;
          "";
          "## Arguments";
          "";
          "```json";
          args;
          "```";
          "";
          "### Result";
          "";
          "```json";
          result;
          "```" ].

(** [create_markdown_artifact(markdown=..., key=...)] *)
Definition create_markdown_artifact (markdown key : string) : M World unit :=
  modify (add_artifact (mkArtifact MarkdownArtifact key [markdown] None)).

(** [create_json_artifact(key=..., data=..., description=...)] *)
Definition create_json_artifact (key : string) (data : list string)
  (description : string) : M World unit :=
  modify (add_artifact (mkArtifact JsonArtifact key data (Some description))).

(** Calling a callable with [( *pos, **kw)].

    [Fn_modified_fn original_fn tool] is the wrapper of [_get_tools]:
<<
    async def modified_fn( *args, original_fn=..., tool=..., **kwargs):
        result = original_fn( *args, **kwargs)
        passed_args = inspect.signature(original_fn).bind( *args, **kwargs).arguments
        try: passed_args = json.dumps(passed_args, indent=2)
        except Exception: pass
        create_markdown_artifact(markdown=TEMPLATE.format(...), key="result")
        return result
>>
    Its keyword-only parameters [original_fn] and [tool] take a keyword
    argument of that name from the caller when there is one; [kwargs] is
    what is left. *)
Fixpoint call (f : Callable) (a : Args) : M World PyVal :=
  match f with
  | Fn_def n =>
      match sig_bind (signature f) a with
      | None => throw type_error
      | Some b => def_body (py_defs E n) (apply_defaults (signature f) b)
      end
  | Fn_end_run =>
      match sig_bind (signature f) a with
      | None => throw type_error
      | Some _ => end_run
      end
  | Fn_talk_to_human =>
      match sig_bind (signature f) a with
      | None => throw type_error
      | Some b =>
          let b := apply_defaults (signature f) b in
          talk_to_human (arg_value "message" b) (arg_value "get_response" b)
      end
  | Fn_complete task _ e =>
      match sig_bind (signature f) a with
      | None => throw type_error
      | Some b => complete_tool task e (arg_value "result" b)
      end
  | Fn_fail task _ e =>
      match sig_bind (signature f) a with
      | None => throw type_error
      | Some b => fail_tool task e (arg_value "message" b)
      end
  | Fn_run name =>
      match sig_bind (signature f) a with
      | None => throw type_error
      | Some _ => sub_agent_run E name a
      end
  | Fn_modified_fn original_fn tool =>
      let args := pos a in
      let kwargs := dict_del "tool" (dict_del "original_fn" (kw a)) in
      match dict_get "original_fn" (kw a) with
      | Some _ => throw (TypeError "object is not callable")
      | None =>
          result <- call original_fn (mkArgs args kwargs) ;;
          match sig_bind (signature original_fn) (mkArgs args kwargs) with
          | None => throw type_error
          | Some passed_args =>
              let passed_args :=
                match json_dumps E passed_args with
                | Some text => text
                | None => str_arguments E passed_args
                end in
              match dict_get "tool" (kw a) with
              | Some _ => throw (AttributeError "function")
              | None =>
                  w <- get ;;
                  match tool_objects w !! tool with
                  | None => throw (ReferenceError "tool")
                  | Some fn =>
                      create_markdown_artifact
                        (TOOL_CALL_FUNCTION_RESULT_TEMPLATE
                           (fn_name fn)
                           (match fn_description fn with
                            | Some d => if String.eqb d "" then "(none provided)" else d
                            | None => "(none provided)"
                            end)
                           passed_args
                           (str_of result))
                        "result" ;;;
                      ret result
                  end
              end
          end
      end
  end.

End Calls.

(** ** The agent: instructions and tools *)

Section AgentModel.

Variable E : Collaborators.

Definition task_get (w : World) (task : nat) : option AITask :=
  task_objects w !! task.

(** [numbered_tasks] *)
Definition numbered_tasks (self : Agent) : list (nat * nat) :=
  imap (fun i task => (i + 1, task)%nat) (tasks self).

Definition opt_truthy (o : option string) : bool :=
  match o with
  | Some s => negb (String.eqb s "")
  | None => false
  end.

(** Every line of a paragraph ends with a line feed. *)
Definition para (l : list string) : string :=
  String.concat "" (map (fun s => s +:+ LF) l).

Definition bullet (o : option string) : string :=
  if opt_truthy o then para ["- " +:+ str_option E o] else "".

(** [str(d)] of a dict *)
Definition str_dict (d : dict) : string :=
  "{" +:+ String.concat ", "
            (map (fun kv => py_repr E (VStr (fst kv)) +:+ ": " +:+ py_repr E (snd kv)) d)
      +:+ "}".

(** One round of the [for task_id, task in agent.numbered_tasks()] loop of
    the template. *)
Definition render_task (task_id : nat) (t : AITask) : string :=
  para [ "### Task " +:+ str_nat E task_id;
         "- Status: " +:+ status_value (status t);
         "- Objective: " +:+ objective t ]
  +:+ (if opt_truthy (task_instructions t)
       then para ["- Additional instructions: " +:+ str_option E (task_instructions t)]
       else "")
  +:+ (match status t with
       | COMPLETED => para ["- Result: " +:+ str_of E (result t)]
       | FAILED => para ["- Error: " +:+ str_option E (error t)]
       | PENDING => ""
       end)
  +:+ (match task_context t with
       | [] => ""
       | _ :: _ => para ["- Context: " +:+ str_dict (task_context t)]
       end)
  +:+ para [""].

(** [Environment.render(INSTRUCTIONS, agent=, flow=, assistant=,
    instructions=, context=)]: the template [INSTRUCTIONS] with its
    branches and loops.  The environment is taken to trim blocks: a
    block tag leaves no line of its own in the text. *)
Definition INSTRUCTIONS (w : World) (agent : Agent) (flow_ : AIFlow)
  (assistant_ : Assistant) (instructions_ : list string) (context_ : dict)
  : string :=
  para [ "";
         "You are an AI assistant. Your job is to complete the tasks assigned to you.  You";
         "were created by a software application, and any messages you receive are from";
         "that software application, not a user. You may use any tools at your disposal to";
         "complete the task, including talking to a human user.";
         "";
         "";
         "## Instructions";
         "";
         "Follow these instructions at all times:";
         "" ]
  +:+ bullet (assistant_instructions assistant_)
  +:+ bullet (flow_instructions flow_)
  +:+ bullet (instructions agent)
  +:+ String.concat "" (map (fun i => para ["- " +:+ i]) instructions_)
  +:+ para [ ""; ""; "## Tasks"; "" ]
  +:+ (match tasks agent with
       | _ :: _ =>
           para [ "You have been assigned the following tasks. You will continue to run until all";
                  "tasks are finished. It may take multiple attempts, iterations, or tool uses to";
                  "complete a task. When a task is finished, mark it as `completed`";
                  "(and provide a result, if required) or `failed` (with a brief explanation) by";
                  "using the appropriate tool. Do not mark a task as complete if you don't have a";
                  "complete result. Do not make up results. If you receive only partial or unclear";
                  "information from a user, keep working until you have all the information you";
                  "need. Be very sure that a task is truly unsolvable before marking it as failed,";
                  "especially when working with a human user.";
                  "";
                  "" ]
           +:+ String.concat ""
                 (map (fun it =>
                         match task_get w (snd it) with
                         | Some t => render_task (fst it) t
                         | None => ""
                         end)
                      (numbered_tasks agent))
       | [] =>
           para [ "You have no explicit tasks to complete. Follow your instructions as best as you";
                  "can. If it is not possible to comply with the instructions in any way, use the";
                  "`end_run` tool to manually stop the run." ]
       end)
  +:+ para [ "";
             "## Communication";
             "";
             "All messages you receive in the thread are generated by the software that";
             "created you, not a human user. All messages you send are sent only to that";
             "software and are never seen by any human.";
             "" ]
  +:+ (if system_access agent
       then para [ "The software that created you is an AI capable of processing natural language,";
                   "so you can freely respond by posting messages to the thread." ]
       else para [ "The software that created you is a Python script that can only process";
                   "structured responses produced by your tools. DO NOT POST ANY MESSAGES OR RESPONSES TO THE";
                   "THREAD. They will be ignored and only waste time. ONLY USE TOOLS TO RESPOND." ])
  +:+ para [ "" ]
  +:+ (if user_access agent
       then para [ "There is also a human user who may be involved in the task. You can communicate";
                   "with them using the `talk_to_human` tool. The user is a human and unaware of";
                   "your tasks or this system. Do not mention your tasks or anything about how the";
                   "system works to them. They can only see messages you send them via tool, not the";
                   "rest of the thread. When dealing with humans, you may not always get a clear or";
                   "correct response. You may need to ask multiple times or rephrase your questions.";
                   "You should also interpret human responses broadly and not be too literal." ]
       else para [ "You can not communicate with a human user at this time." ])
  +:+ para [ ""; "" ]
  +:+ (match context_ with
       | [] => ""
       | _ :: _ =>
           para [ "## Additional context"; ""; "The following context was provided:" ]
           +:+ String.concat ""
                 (map (fun kv => para ["- " +:+ fst kv +:+ ": " +:+ str_of E (snd kv)])
                      context_)
       end).

(** [_get_instructions] *)
Definition _get_instructions (self : Agent) (context_ : option dict) (w : World)
  : string :=
  INSTRUCTIONS w self (flow self) (assistant self) (ctx_instructions w)
    (dict_merge (context self) (default [] context_)).

(** [__name__] and [__doc__] of a callable.  The names of the two task
    tools follow the spec (a tool named for its task). *)
Definition callable_name (f : Callable) : string :=
  match f with
  | Fn_def n => n
  | Fn_end_run => "end_run"
  | Fn_talk_to_human => "talk_to_human"
  | Fn_complete _ i _ => "complete_task_" +:+ str_nat E i
  | Fn_fail _ i _ => "fail_task_" +:+ str_nat E i
  | Fn_run _ => "_run"
  | Fn_modified_fn _ _ => "modified_fn"
  end.

Definition callable_doc (f : Callable) : option string :=
  match f with
  | Fn_def n => def_doc (py_defs E n)
  | Fn_end_run => Some "Use this tool to end the run."
  | Fn_talk_to_human =>
      Some (lines
        [ "Send a message to the human user and optionally wait for a response.";
          "If `get_response` is True, the function will return the user's response,";
          "otherwise it will return a simple confirmation." ])
  | _ => None
  end.

(** [marvin.utilities.tools.tool_from_function]: a new [FunctionTool]
    object around the callable. *)
Definition tool_from_function (f : Callable) (name description : option string)
  : M World AssistantTool :=
  w <- get ;;
  modify (set_tool_objects (fun h =>
    h ++ [mkFunction (default (callable_name f) name)
                     (match description with
                      | Some d => Some d
                      | None => callable_doc f
                      end)
                     f])) ;;;
  ret (FunctionTool (length (tool_objects w))).

(** [as_tool] of the copy of the agent that has [a] for assistant.  The
    thread it registers in [TEMP_THREADS] belongs to the run of the
    sub-agent, which is a collaborator. *)
Definition as_tool (a : Assistant) : M World AssistantTool :=
  tool_from_function (Fn_run (assistant_name a))
    (Some ("call_ai_" +:+ assistant_name a))
    (Some (lines
      [ "Use this tool to talk to a sub-AI that can operate independently of";
        "you. The sub-AI may have a different skillset or be able to access";
        "different tools than you. The sub-AI will run one iteration and";
        "respond to you. You may continue to invoke it multiple times in sequence, as";
        "needed. ";
        "";
        "Note: you can only talk to one sub-AI at a time. Do not call in parallel or you will get an error about thread conflicts.";
        "";
        "## Sub-AI Details";
        "";
        "- Name: " +:+ assistant_name a;
        "- Instructions: " +:+ str_option E (assistant_instructions a) ])).

(** [early_end_run] of [_get_tools] *)
Definition early_end_run (self : Agent) : bool :=
  negb (system_access self) && (length (tasks self) =? 1)%nat.

(** The list [tools] of [_get_tools] before the final loop. *)
Definition collect_tools (self : Agent) : list Tool :=
  let tools := flow_tools (flow self) ++ tools self ++ assistant_tools (assistant self) in
  let tools :=
    match tasks self with
    | [] => tools ++ [ToolCallable Fn_end_run]
    | _ :: _ => tools
    end in
  let tools :=
    tools ++ flat_map (fun it =>
                 [ ToolCallable (Fn_complete (snd it) (fst it) (early_end_run self));
                   ToolCallable (Fn_fail (snd it) (fst it) (early_end_run self)) ])
               (numbered_tasks self) in
  if user_access self then tools ++ [ToolCallable Fn_talk_to_human] else tools.

(** [tool.function._python_fn = prefect_task(modified_fn, ...)]: the
    function of the tool object is replaced, in place, by its wrapper,
    which captures the function it replaces and the tool. *)
Definition wrap_function (ref : nat) (fn : Function) : Function :=
  mkFunction (fn_name fn) (fn_description fn)
             (Fn_modified_fn (_python_fn fn) ref).

(** One round of the final loop of [_get_tools]. *)
Definition final_tool (tool : Tool) : M World AssistantTool :=
  tool <- match tool with
          | ToolAssistant a => as_tool a
          | ToolCallable f => tool_from_function f None None
          | ToolObject t => ret t
          end ;;
  match tool with
  | FunctionTool ref =>
      modify (set_tool_objects (alter (wrap_function ref) ref)) ;;;
      ret tool
  | _ => ret tool
  end.

Fixpoint final_tools (l : list Tool) : M World (list AssistantTool) :=
  match l with
  | [] => ret []
  | tool :: l' =>
      t <- final_tool tool ;;
      ts <- final_tools l' ;;
      ret (t :: ts)
  end.

(** [_get_tools] *)
Definition _get_tools (self : Agent) : M World (list AssistantTool) :=
  final_tools (collect_tools self).

(** ** One turn and the run loop *)

Definition or_else (o : option string) (d : PyVal) : PyVal :=
  if opt_truthy o then VStr (default "" o) else d.

(** [Run(...).run_async()]: the round trip is entered in the log, then
    made.  The log is a record kept beside the program: the round trip
    does not change it. *)
Definition round_trip (req : RunRequest) : M World Run :=
  fun w =>
    let log := run_log w ++ [req] in
    let (o, w') := Run_run_async E req (set_run_log log w) in
    (o, set_run_log log w').

(** [execute_openai_run], the task built by [_get_openai_run_task].  It
    pops [model] and [thread] from the dictionary it is given, which is
    the caller's: the dictionary is returned as the call left it. *)
Definition execute_openai_run (self : Agent) (context_ : option dict)
  (run_kwargs : dict) : M World (Run * dict) :=
  let (model, run_kwargs) :=
    dict_pop "model"
      (or_else (assistant_model (assistant self))
         (or_else (flow_model (flow self)) (VStr (settings_assistant_model E))))
      run_kwargs in
  let thread :=
    match dict_get "thread" run_kwargs with
    | Some v => ThreadValue v
    | None => ThreadOf (flow_thread (flow self))
    end in
  let run_kwargs := dict_del "thread" run_kwargs in
  w <- get ;;
  let instructions_ := _get_instructions self context_ w in
  tools_ <- _get_tools self ;;
  run <- round_trip (mkRunRequest (assistant self) thread instructions_ tools_
                                 model run_kwargs) ;;
  create_json_artifact "messages" (messages run)
    "All messages sent and received during the run." ;;;
  create_json_artifact "actions" (steps run)
    "All actions taken by the assistant during the run." ;;;
  ret (run, run_kwargs).

Definition is_pending (w : World) (task : nat) : bool :=
  match task_get w task with
  | Some t => status_eqb (status t) PENDING
  | None => false
  end.

(** [any(t.status == TaskStatus.PENDING for t in self.tasks)] *)
Definition any_pending (self : Agent) (w : World) : bool :=
  existsb (is_pending w) (tasks self).

(** [[t.result for t in self.tasks if t.status == TaskStatus.COMPLETED]] *)
Definition completed_results (self : Agent) (w : World) : list PyVal :=
  flat_map (fun task =>
              match task_get w task with
              | Some t => if status_eqb (status t) COMPLETED then [result t] else []
              | None => []
              end)
           (tasks self).

(** The [while] loop of [run_async]; [counter] never passes
    [max_agent_iterations], which bounds the number of rounds. *)
Equations? run_loop (self : Agent) (context_ : option dict) (run_kwargs : dict)
  (counter : Z) (w : World) : Outcome unit * World
  by wf (Z.to_nat (max_agent_iterations E - counter)) lt :=
  run_loop self context_ run_kwargs counter w
    with Sumbool.sumbool_of_bool
           (any_pending self w && (counter <? max_agent_iterations E)) := {
    | left _ =>
        match execute_openai_run self context_ run_kwargs w with
        | (Return (_, run_kwargs'), w') =>
            run_loop self context_ run_kwargs' (counter + 1) w'
        | (Raise e, w') => (Raise e, w')
        end
    | right _ => (Return tt, w) }.
Proof.
  apply andb_prop in e as [_ Hlt]. apply Z.ltb_lt in Hlt. lia.
Qed.

(** [run_async] *)
Definition run_async (self : Agent) (context_ : option dict) (run_kwargs : dict)
  : M World (list PyVal) :=
  r <- execute_openai_run self context_ run_kwargs ;;
  (if negb (system_access self)
   then run_loop self context_ (snd r) 0
   else ret tt) ;;;
  w <- get ;;
  ret (completed_results self w).

(** ** Constructing an agent; [run_agent] *)

(** [_load_flow_from_ctx] *)
Definition _load_flow_from_ctx (v : option AIFlow) (w : World) : AIFlow :=
  match v with
  | Some f => f
  | None =>
      match ctx_flow w with
      | Some f => f
      | None => new_AIFlow E
      end
  end.

(** [_default_context] *)
Definition _default_context (v : option dict) : dict :=
  match v with
  | Some d => d
  | None => []
  end.

(** [_default_assistant] *)
Definition _default_assistant (v : option Assistant) (w : World) : Assistant :=
  match v with
  | Some a => a
  | None =>
      let v :=
        match ctx_flow w with
        | Some f => flow_assistant f
        | None => None
        end in
      match v with
      | Some a => a
      | None => new_Assistant E
      end
  end.

(** [_default_access], the validator of [user_access] and [system_access] *)
Definition _default_access (v : option bool) : bool :=
  match v with
  | Some b => b
  | None => false
  end.

(** The keyword arguments of [Agent(...)]; [None] is a field that was not
    given (or given as [None]). *)
Record AgentArgs : Type := mkAgentArgs {
  arg_tasks : list nat;
  arg_flow : option AIFlow;
  arg_assistant : option Assistant;
  arg_tools : list Tool;
  arg_context : option dict;
  arg_user_access : option bool;
  arg_system_access : option bool;
  arg_instructions : option string
}.

(** [Agent(...)]: every field goes through its validator. *)
Definition new_Agent (a : AgentArgs) (w : World) : Agent :=
  mkAgent (arg_tasks a)
          (_load_flow_from_ctx (arg_flow a) w)
          (_default_assistant (arg_assistant a) w)
          (arg_tools a)
          (_default_context (arg_context a))
          (_default_access (arg_user_access a))
          (_default_access (arg_system_access a))
          (arg_instructions a).

(** [AITask[cast](objective=..., context=...)]: a new task object, PENDING. *)
Definition new_AITask (objective_ : string) (context_ : option dict) (cast : PyType)
  : M World nat :=
  w <- get ;;
  modify (set_task_objects (fun h =>
    h ++ [mkAITask objective_ PENDING VNone None (_default_context context_)
                   None cast])) ;;;
  ret (length (task_objects w)).

(** [**agent_kwargs] of [run_agent]: the fields of [Agent] that
    [run_agent] does not set itself. *)
Record AgentKwargs : Type := mkAgentKwargs {
  kw_assistant : option Assistant;
  kw_tools : list Tool;
  kw_system_access : option bool;
  kw_instructions : option string
}.

Definition opt_val (o : option string) : PyVal :=
  match o with
  | Some s => VStr s
  | None => VNone
  end.

(** [run_agent].  [cast = None] stands for [NOT_PROVIDED]. *)
Definition run_agent (task : option string) (cast : option PyType)
  (context_ : option dict) (user_access_ : option bool) (model : PyVal)
  (agent_kwargs : AgentKwargs) : M World PyVal :=
  let cast :=
    match cast with
    | Some c => c
    | None => if opt_truthy task then TyStr else TyNone
    end in
  w <- get ;;
  let flow_ := ctx_flow w in
  ai_tasks <- (if opt_truthy task
               then t <- new_AITask (default "" task) context_ cast ;; ret [t]
               else ret []) ;;
  w <- get ;;
  let agent :=
    new_Agent (mkAgentArgs ai_tasks flow_ (kw_assistant agent_kwargs)
                           (kw_tools agent_kwargs) None
                           user_access_ (kw_system_access agent_kwargs)
                           (kw_instructions agent_kwargs)) w in
  run_async agent None [("model", model)] ;;;
  match ai_tasks with
  | [] => ret VNone
  | t0 :: _ =>
      w <- get ;;
      match task_get w t0 with
      | None => throw (ReferenceError "task")
      | Some t =>
          match status t with
          | COMPLETED => ret (result t)
          | FAILED => throw (ValueError (opt_val (error t)))
          | PENDING => ret VNone
          end
      end
  end.

End AgentModel.

(** ** Orchestrator events *)

Module Events.

Section OrchestratorEvents.

(** The classes the events refer to: [Orchestrator], [Agent] (of
    [controlflow.agents.agent]) and [Exception]. *)
Variables Orchestrator Agent Exception : Type.

Record OrchestratorStart : Type := mkOrchestratorStart {
  start_event : string;
  start_persist : bool;
  start_orchestrator : Orchestrator
}.

Record OrchestratorEnd : Type := mkOrchestratorEnd {
  end_event : string;
  end_persist : bool;
  end_orchestrator : Orchestrator
}.

Record OrchestratorError : Type := mkOrchestratorError {
  error_event : string;
  error_persist : bool;
  error_orchestrator : Orchestrator;
  error_error : Exception
}.

Record AgentTurnStart : Type := mkAgentTurnStart {
  turn_start_event : string;
  turn_start_persist : bool;
  turn_start_orchestrator : Orchestrator;
  turn_start_agent : Agent
}.

Record AgentTurnEnd : Type := mkAgentTurnEnd {
  turn_end_event : string;
  turn_end_persist : bool;
  turn_end_orchestrator : Orchestrator;
  turn_end_agent : Agent
}.

(** The constructors of the classes.  [event] is fixed by its [Literal]
    type; [persist] is a field with default [False], which a caller may
    give ([None]: not given); the other fields are required. *)
Definition new_OrchestratorStart (persist_ : option bool)
  (orchestrator : Orchestrator) : OrchestratorStart :=
  mkOrchestratorStart "orchestrator-start" (default false persist_) orchestrator.

Definition new_OrchestratorEnd (persist_ : option bool)
  (orchestrator : Orchestrator) : OrchestratorEnd :=
  mkOrchestratorEnd "orchestrator-end" (default false persist_) orchestrator.

Definition new_OrchestratorError (persist_ : option bool)
  (orchestrator : Orchestrator) (error : Exception) : OrchestratorError :=
  mkOrchestratorError "orchestrator-error" (default false persist_) orchestrator error.

Definition new_AgentTurnStart (persist_ : option bool)
  (orchestrator : Orchestrator) (agent : Agent) : AgentTurnStart :=
  mkAgentTurnStart "agent-turn-start" (default false persist_) orchestrator agent.

Definition new_AgentTurnEnd (persist_ : option bool)
  (orchestrator : Orchestrator) (agent : Agent) : AgentTurnEnd :=
  mkAgentTurnEnd "agent-turn-end" (default false persist_) orchestrator agent.

(** The five classes as one type of events. *)
Inductive OrchestratorEvent : Type :=
| EvStart (e : OrchestratorStart)
| EvEnd (e : OrchestratorEnd)
| EvError (e : OrchestratorError)
| EvTurnStart (e : AgentTurnStart)
| EvTurnEnd (e : AgentTurnEnd).

Definition event (ev : OrchestratorEvent) : string :=
  match ev with
  | EvStart e => start_event e
  | EvEnd e => end_event e
  | EvError e => error_event e
  | EvTurnStart e => turn_start_event e
  | EvTurnEnd e => turn_end_event e
  end.

Definition persist (ev : OrchestratorEvent) : bool :=
  match ev with
  | EvStart e => start_persist e
  | EvEnd e => end_persist e
  | EvError e => error_persist e
  | EvTurnStart e => turn_start_persist e
  | EvTurnEnd e => turn_end_persist e
  end.

Definition orchestrator (ev : OrchestratorEvent) : Orchestrator :=
  match ev with
  | EvStart e => start_orchestrator e
  | EvEnd e => end_orchestrator e
  | EvError e => error_orchestrator e
  | EvTurnStart e => turn_start_orchestrator e
  | EvTurnEnd e => turn_end_orchestrator e
  end.

Definition error_of (ev : OrchestratorEvent) : option Exception :=
  match ev with
  | EvError e => Some (error_error e)
  | _ => None
  end.

Definition agent_of (ev : OrchestratorEvent) : option Agent :=
  match ev with
  | EvTurnStart e => Some (turn_start_agent e)
  | EvTurnEnd e => Some (turn_end_agent e)
  | _ => None
  end.

(** The events of the five classes, constructed with the fields the
    class requires and [persist] left to its default. *)
Inductive constructed : OrchestratorEvent -> Prop :=
| c_start o : constructed (EvStart (new_OrchestratorStart None o))
| c_end o : constructed (EvEnd (new_OrchestratorEnd None o))
| c_error o x : constructed (EvError (new_OrchestratorError None o x))
| c_turn_start o a : constructed (EvTurnStart (new_AgentTurnStart None o a))
| c_turn_end o a : constructed (EvTurnEnd (new_AgentTurnEnd None o a)).

End OrchestratorEvents.

Arguments new_OrchestratorStart {Orchestrator}.
Arguments new_OrchestratorEnd {Orchestrator}.
Arguments new_OrchestratorError {Orchestrator Exception}.
Arguments new_AgentTurnStart {Orchestrator Agent}.
Arguments new_AgentTurnEnd {Orchestrator Agent}.
Arguments EvStart {Orchestrator Agent Exception}.
Arguments EvEnd {Orchestrator Agent Exception}.
Arguments EvError {Orchestrator Agent Exception}.
Arguments EvTurnStart {Orchestrator Agent Exception}.
Arguments EvTurnEnd {Orchestrator Agent Exception}.
Arguments event {Orchestrator Agent Exception}.
Arguments persist {Orchestrator Agent Exception}.
Arguments orchestrator {Orchestrator Agent Exception}.
Arguments error_of {Orchestrator Agent Exception}.
Arguments agent_of {Orchestrator Agent Exception}.
Arguments constructed {Orchestrator Agent Exception}.

End Events.

(** ** Notions used in the statements *)

(** [k] wrappers of the tool object [ref] around [f]. *)
Fixpoint wraps (k : nat) (ref : nat) (f : Callable) : Callable :=
  match k with
  | O => f
  | S k' => Fn_modified_fn (wraps k' ref f) ref
  end.

(** The two stores differ in their tool objects at most. *)
Definition only_tools_differ (w w' : World) : Prop :=
  w' = set_tool_objects (fun _ => tool_objects w') w.

(** Every tool object of [w] is still there in [w'], with the same name
    and description, its function under zero or more wrappers. *)
Definition grows (w w' : World) : Prop :=
  forall r fn,
    tool_objects w !! r = Some fn ->
    exists k,
      tool_objects w' !! r
      = Some (mkFunction (fn_name fn) (fn_description fn)
                         (wraps k r (_python_fn fn))).

(** The tool object [ref] of [w] holds [f] under one or more wrappers. *)
Definition wrapped_in (w : World) (ref : nat) (name : string)
  (description : option string) (f : Callable) : Prop :=
  exists k,
    tool_objects w !! ref = Some (mkFunction name description (wraps (S k) ref f)).

Section Built.

Variable E : Collaborators.

(** What the final loop of [_get_tools] makes of an entry of [tools]:
    [t] is the tool in the final list, [w] the store before the loop and
    [w'] the store after it. *)
Definition built (w w' : World) (tool : Tool) (t : AssistantTool) : Prop :=
  match tool with
  | ToolObject (FunctionTool r) =>
      t = FunctionTool r
      /\ forall fn, tool_objects w !! r = Some fn ->
           wrapped_in w' r (fn_name fn) (fn_description fn) (_python_fn fn)
  | ToolObject t0 => t = t0
  | ToolCallable f =>
      exists r, t = FunctionTool r
        /\ wrapped_in w' r (callable_name E f) (callable_doc E f) f
  | ToolAssistant a =>
      exists r d, t = FunctionTool r
        /\ wrapped_in w' r ("call_ai_" +:+ assistant_name a) (Some d)
                      (Fn_run (assistant_name a))
  end.

(** The request that a turn sends from [w], given the tools it
    assembled. *)
Definition request_of (self : Agent) (context_ : option dict) (run_kwargs : dict)
  (w : World) (ts : list AssistantTool) : RunRequest :=
  mkRunRequest (assistant self)
    (match dict_get "thread" (dict_del "model" run_kwargs) with
     | Some v => ThreadValue v
     | None => ThreadOf (flow_thread (flow self))
     end)
    (_get_instructions E self context_ w) ts
    (match dict_get "model" run_kwargs with
     | Some v => v
     | None =>
         or_else (assistant_model (assistant self))
           (or_else (flow_model (flow self)) (VStr (settings_assistant_model E)))
     end)
    (dict_del "thread" (dict_del "model" run_kwargs)).

(** The two artifacts that a turn records when its round trip is over. *)
Definition after_run (run : Run) (w : World) : World :=
  add_artifact (mkArtifact JsonArtifact "actions" (steps run)
                  (Some "All actions taken by the assistant during the run."))
    (add_artifact (mkArtifact JsonArtifact "messages" (messages run)
                     (Some "All messages sent and received during the run."))
       w).

(** [n] turns in a row from [w]: the store they reach, with the
    dictionary of keyword arguments as the last turn left it. *)
Fixpoint turns (self : Agent) (context_ : option dict) (n : nat)
  (run_kwargs : dict) (w : World) : Outcome dict * World :=
  match n with
  | O => (Return run_kwargs, w)
  | S n' =>
      match turns self context_ n' run_kwargs w with
      | (Return run_kwargs', w') =>
          match execute_openai_run E self context_ run_kwargs' w' with
          | (Return r, w'') => (Return (snd r), w'')
          | (Raise e, w'') => (Raise e, w'')
          end
      | (Raise e, w') => (Raise e, w')
      end
  end.

End Built.

(** Every task of the agent is PENDING. *)
Definition all_pending (self : Agent) (w : World) : bool :=
  forallb (is_pending w) (tasks self).

(** The tools that [_get_tools] adds are recognised by their function. *)
Definition is_end_run (t : Tool) : bool :=
  match t with ToolCallable Fn_end_run => true | _ => false end.
Definition is_talk_to_human (t : Tool) : bool :=
  match t with ToolCallable Fn_talk_to_human => true | _ => false end.
Definition is_complete (t : Tool) : bool :=
  match t with ToolCallable (Fn_complete _ _ _) => true | _ => false end.
Definition is_fail (t : Tool) : bool :=
  match t with ToolCallable (Fn_fail _ _ _) => true | _ => false end.

(** The tools an agent is given: those of its flow, its own and those of
    its assistant. *)
Definition given_tools (self : Agent) : list Tool :=
  flow_tools (flow self) ++ tools self ++ assistant_tools (assistant self).

(** The artifact that a wrapped tool records for one call. *)
Definition result_artifact (md : string) : Artifact :=
  mkArtifact MarkdownArtifact "result" [md] None.

Definition add_artifacts (arts : list Artifact) (w : World) : World :=
  fold_left (fun w a => add_artifact a w) arts w.

(** The complete and fail tools of the numbered tasks [l]. *)
Definition task_tools (self : Agent) (l : list (nat * nat)) : list Tool :=
  flat_map (fun it =>
              [ ToolCallable (Fn_complete (snd it) (fst it) (early_end_run self));
                ToolCallable (Fn_fail (snd it) (fst it) (early_end_run self)) ])
           l.

(** What [_get_tools] adds to the given tools before its final loop. *)
Definition added_tools (self : Agent) : list Tool :=
  drop (length (given_tools self)) (collect_tools self).

(** ** Concrete collaborators *)

Module Scenario.

(** [str] of the values of the model. *)
Definition str (v : PyVal) : string :=
  match v with
  | VNone => "None"
  | VBool true => "True"
  | VBool false => "False"
  | VInt z => NilZero.string_of_int (Z.to_int z)
  | VStr s => s
  | VEndRun => "EndRun()"
  end.

(** [repr]; strings are quoted as they are. *)
Definition repr (v : PyVal) : string :=
  match v with
  | VStr s => "'" +:+ s +:+ "'"
  | _ => str v
  end.

(** Validation that accepts the values of the type and nothing else. *)
Definition strict (ty : PyType) (v : PyVal) : option PyVal :=
  match ty, v with
  | TyNone, VNone | TyStr, VStr _ | TyInt, VInt _ | TyBool, VBool _ => Some v
  | _, _ => None
  end.

(** [json.dumps(arguments, indent=2)]; strings are written without
    escapes, the [EndRun] object is not serialisable. *)
Definition quote : string := String (ascii_of_nat 34) EmptyString.

Definition json_plain (v : PyVal) : option string :=
  match v with
  | VNone => Some "null"
  | VBool true => Some "true"
  | VBool false => Some "false"
  | VInt z => Some (str v)
  | VStr s => Some (quote +:+ s +:+ quote)
  | VEndRun => None
  end.

Definition json_block (open_ close_ : string) (items : list string) : string :=
  match items with
  | [] => open_ +:+ close_
  | _ :: _ =>
      open_ +:+ LF
      +:+ String.concat ("," +:+ LF) (map (fun i => "    " +:+ i) items)
      +:+ LF +:+ "  " +:+ close_
  end.

Definition json_value (v : ArgVal) : option string :=
  match v with
  | AVal v => json_plain v
  | ATuple l => json_block "[" "]" <$> mapM json_plain l
  | ADict d =>
      json_block "{" "}"
      <$> mapM (fun kv =>
                  (fun v => quote +:+ fst kv +:+ quote +:+ ": " +:+ v)
                  <$> json_plain (snd kv))
               d
  end.

Definition dumps (b : BoundArguments) : option string :=
  match b with
  | [] => Some "{}"
  | _ :: _ =>
      (fun items =>
         "{" +:+ LF +:+ String.concat ("," +:+ LF) items +:+ LF +:+ "}")
      <$> mapM (fun kv =>
                  (fun v => "  " +:+ quote +:+ fst kv +:+ quote +:+ ": " +:+ v)
                  <$> json_value (snd kv))
               b
  end.

(** [str(arguments)] *)
Definition str_bound (b : BoundArguments) : string :=
  let seq (l : list PyVal) :=
    match l with
    | [x] => repr x +:+ ","
    | _ => String.concat ", " (map repr l)
    end in
  let entries (d : dict) :=
    String.concat ", " (map (fun kv => repr (VStr (fst kv)) +:+ ": " +:+ repr (snd kv)) d) in
  "{" +:+ String.concat ", "
            (map (fun kv =>
                    repr (VStr (fst kv)) +:+ ": "
                    +:+ match snd kv with
                        | AVal v => repr v
                        | ATuple l => "(" +:+ seq l +:+ ")"
                        | ADict d => "{" +:+ entries d +:+ "}"
                        end)
                 b)
      +:+ "}".

(** [def echo(tool): return tool] *)
Definition echo : PyDef :=
  mkPyDef None (mkSignature [mkParam "tool" None] None [] None)
          (fun b w => (Return (arg_value "tool" b), w)).

(** [def noop(): pass] *)
Definition noop : PyDef :=
  mkPyDef None (mkSignature [] None [] None) (fun _ w => (Return VNone, w)).

Definition defs (n : string) : PyDef :=
  if String.eqb n "echo" then echo else noop.

Definition the_flow : AIFlow := mkAIFlow [] None None 0 None.
Definition the_assistant : Assistant := mkAssistant "Assistant" None None [].

(** Collaborators around a given model backend. *)
Definition with_model (budget : Z)
  (model : RunRequest -> World -> Outcome Run * World) : Collaborators :=
  mkCollaborators budget "gpt-4" defs model
    (fun _ _ w => (Return VNone, w))
    str repr strict the_flow the_assistant dumps str_bound.

(** A model that answers without calling a tool. *)
Definition idle (req : RunRequest) (w : World) : Outcome Run * World :=
  (Return (mkRun [] []), w).

(** Calling the function tool named [name] among the tools of a request. *)
Definition call_tool (name : string) (a : Args) (req : RunRequest) (w : World)
  : World :=
  match
    List.find (fun t =>
                 match t with
                 | FunctionTool r =>
                     match tool_objects w !! r with
                     | Some fn => String.eqb (fn_name fn) name
                     | None => false
                     end
                 | _ => false
                 end)
              (run_tools req)
  with
  | Some (FunctionTool r) =>
      match tool_objects w !! r with
      | Some fn => snd (call (with_model 0 idle) (_python_fn fn) a w)
      | None => w
      end
  | _ => w
  end.

(** A model that makes the same tool calls in every round trip. *)
Definition calling (calls : list (string * Args)) (req : RunRequest) (w : World)
  : Outcome Run * World :=
  (Return (mkRun [] []),
   fold_left (fun w c => call_tool (fst c) (snd c) req w) calls w).

Definition empty_world : World := mkWorld [] [] [] [] [] None [] [].

Definition task (o : string) (ty : PyType) : AITask :=
  mkAITask o PENDING VNone None [] None ty.

Definition one_task (o : string) (ty : PyType) : World :=
  mkWorld [task o ty] [] [] [] [] None [] [].

Definition agent_of (ts : list nat) (sys : bool) : Agent :=
  mkAgent ts the_flow the_assistant [] [] false sys None.

End Scenario.

(** * The rest of the module *)

(** ** Naming a task run: [_name_from_objective] *)


(** ** The decorator [ai_task] *)





Section Decorator.

Variable E : Collaborators.


End Decorator.

(** ** [AgentHandler]: tool calls as task runs *)

Module Handler.

(** A tool call of the run ([openai.types.beta.threads.runs.ToolCall]):
    [function_] fields for the type ["function"], [code_] fields for the
    type ["code_interpreter"]. *)
Record ToolCall : Type := mkToolCall {
  tc_id : string;
  tc_type : string;
  function_name : string;
  function_arguments : string;
  code_input : string;
  code_outputs : list string
}.

Inductive RunState : Type := Running | Completed.

(** A task run of the Prefect server. *)
Record TaskRun : Type := mkTaskRun {
  tr_id : nat;
  tr_name : string;
  tr_tags : list string;
  tr_flow_run_id : nat;
  tr_dynamic_key : string;
  tr_state : RunState
}.

(** An artifact attached to a task run. *)
Record RunArtifact : Type := mkRunArtifact {
  ra_kind : ArtifactKind;
  ra_key : string;
  ra_data : list string;
  ra_description : string;
  ra_task_run_id : nat
}.

(** The handler and what it talks to: [self.tool_calls], the flow run
    of [FlowRunContext.get()] when there is one, and the task runs and
    artifacts of the server.  The identifier of a task run is its rank. *)
Record State : Type := mkState {
  tool_calls : gmap string TaskRun;
  flow_run : option nat;
  task_runs : list TaskRun;
  run_artifacts : list RunArtifact
}.

Section Callbacks.

(** [json.dumps(json.loads(s), indent=2)]; [None] when [s] is not JSON. *)
Variable reindent : string -> option string.

(** [client.create_task_run(...)] with [state=Running()] *)
Definition create_task_run (name : string) (extra_tags : list string)
  (flow_run_id : nat) (dynamic_key : string) : M State TaskRun :=
  fun s =>
    let run := mkTaskRun (length (task_runs s)) name extra_tags flow_run_id
                         dynamic_key Running in
    (Return run,
     mkState (tool_calls s) (flow_run s) (task_runs s ++ [run]) (run_artifacts s)).

(** [client.set_task_run_state(task_run_id=, state=, force=True)] *)
Definition set_task_run_state (task_run_id : nat) (state : RunState)
  : M State unit :=
  modify (fun s =>
    mkState (tool_calls s) (flow_run s)
            (alter (fun r => mkTaskRun (tr_id r) (tr_name r) (tr_tags r)
                                       (tr_flow_run_id r) (tr_dynamic_key r) state)
                   task_run_id (task_runs s))
            (run_artifacts s)).

Definition create_artifact (a : RunArtifact) : M State unit :=
  modify (fun s =>
    mkState (tool_calls s) (flow_run s) (task_runs s) (run_artifacts s ++ [a])).

(** [on_tool_call_created] *)
Definition on_tool_call_created (tool_call : ToolCall) : M State unit :=
  let task_run_name :=
    if String.eqb (tc_type tool_call) "function"
    then "Prepare arguments for tool call"
    else "Tool call: " +:+ tc_type tool_call in
  s <- get ;;
  match flow_run s with
  | None => ret tt
  | Some flow_run_id =>
      task_run <- create_task_run task_run_name ["tool-call"] flow_run_id
                    (tc_id tool_call) ;;
      modify (fun s =>
        mkState (<[tc_id tool_call := task_run]> (tool_calls s)) (flow_run s)
                (task_runs s) (run_artifacts s))
  end.

(** [on_tool_call_done]; [json.loads] raises [JSONDecodeError], a
    [ValueError] that holds the document it could not read. *)
Definition on_tool_call_done (tool_call : ToolCall) : M State unit :=
  s <- get ;;
  match tool_calls s !! tc_id tool_call with
  | None => ret tt
  | Some task_run =>
      set_task_run_state (tr_id task_run) Completed ;;;
      if String.eqb (tc_type tool_call) "code_interpreter" then
        create_artifact
          (mkRunArtifact PythonArtifact "code" [code_input tool_call]
             "Code executed in the code interpreter" (tr_id task_run)) ;;;
        create_artifact
          (mkRunArtifact JsonArtifact "output" (code_outputs tool_call)
             "Output from the code interpreter" (tr_id task_run))
      else if String.eqb (tc_type tool_call) "function" then
        match reindent (function_arguments tool_call) with
        | None => throw (ValueError (VStr (function_arguments tool_call)))
        | Some data =>
            create_artifact
              (mkRunArtifact JsonArtifact "arguments" [data]
                 ("Arguments for the `" +:+ function_name tool_call +:+ "` tool")
                 (tr_id task_run))
        end
      else ret tt
  end.

End Callbacks.

(** Notions used in the statements about the handler: the name under
    which a tool call is reported, the artifacts that its end attaches to
    its task run, the outcome of [on_tool_call_done], and a task run once
    it is completed. *)
Section Notions.

Variable reindent : string -> option string.

Definition task_run_name (tool_call : ToolCall) : string :=
  if String.eqb (tc_type tool_call) "function"
  then "Prepare arguments for tool call"
  else "Tool call: " +:+ tc_type tool_call.

Definition done_artifacts (tool_call : ToolCall) (task_run_id : nat)
  : list RunArtifact :=
  if String.eqb (tc_type tool_call) "code_interpreter" then
    [ mkRunArtifact PythonArtifact "code" [code_input tool_call]
        "Code executed in the code interpreter" task_run_id;
      mkRunArtifact JsonArtifact "output" (code_outputs tool_call)
        "Output from the code interpreter" task_run_id ]
  else if String.eqb (tc_type tool_call) "function" then
    match reindent (function_arguments tool_call) with
    | Some data =>
        [ mkRunArtifact JsonArtifact "arguments" [data]
            ("Arguments for the `" +:+ function_name tool_call +:+ "` tool")
            task_run_id ]
    | None => []
    end
  else [].

Definition done_outcome (tool_call : ToolCall) : Outcome unit :=
  if String.eqb (tc_type tool_call) "function" then
    match reindent (function_arguments tool_call) with
    | Some _ => Return tt
    | None => Raise (ValueError (VStr (function_arguments tool_call)))
    end
  else Return tt.

Definition mark_completed (r : TaskRun) : TaskRun :=
  mkTaskRun (tr_id r) (tr_name r) (tr_tags r) (tr_flow_run_id r)
            (tr_dynamic_key r) Completed.

End Notions.

(** A [json.loads] that knows two documents. *)
Definition two_documents (s : string) : option string :=
  if String.eqb s "{}" then Some "{}"
  else if String.eqb s "[]" then Some "[]"
  else None.

End Handler.

(** Tools that are tool objects already, and the function tool with a
    given reference. *)
Definition is_object (t : Tool) : bool :=
  match t with ToolObject _ => true | _ => false end.

Definition is_ref (r : nat) (t : Tool) : bool :=
  match t with ToolObject (FunctionTool r') => Nat.eqb r r' | _ => false end.

(** * Properties *)

(** ** Dictionaries and bindings *)

Lemma dict_del_absent k d : dict_get k d = None -> dict_del k d = d.
Proof.
  induction d as [|[k0 v0] d IH]; simpl; [reflexivity|].
  destruct (String.eqb_spec k k0) as [->|Hne]; [discriminate|].
  intros H. simpl. now rewrite IH.
Qed.

Lemma args_eta (a : Args) : mkArgs (pos a) (kw a) = a.
Proof. now destruct a. Qed.

(** Arguments without the two names that [modified_fn] keeps for itself
    reach the wrapped function as they are. *)
Lemma forwarded_args a :
  dict_get "original_fn" (kw a) = None ->
  dict_get "tool" (kw a) = None ->
  mkArgs (pos a) (dict_del "tool" (dict_del "original_fn" (kw a))) = a.
Proof.
  intros H1 H2. rewrite (dict_del_absent _ _ H1), (dict_del_absent _ _ H2).
  apply args_eta.
Qed.

Lemma bind_kwonly_defaults ps d :
  Forall (fun p => p_default p <> None) ps -> is_Some (bind_kwonly ps d).
Proof.
  intros Hps. revert d. induction Hps as [|p ps Hp _ IH]; intros d; simpl.
  - eauto.
  - destruct (dict_get (p_name p) d).
    + destruct (IH (dict_del (p_name p) d)) as [[b k'] ->]. eauto.
    + destruct (p_default p); [apply IH|congruence].
Qed.

(** ** The final loop of [_get_tools] *)

Lemma wraps_add a b r f : wraps a r (wraps b r f) = wraps (a + b) r f.
Proof. induction a as [|a IH]; simpl; [reflexivity|now rewrite IH]. Qed.

Lemma only_tools_differ_refl w : only_tools_differ w w.
Proof. now destruct w. Qed.

Lemma only_tools_differ_trans w1 w2 w3 :
  only_tools_differ w1 w2 -> only_tools_differ w2 w3 -> only_tools_differ w1 w3.
Proof.
  unfold only_tools_differ. intros H12 H23. rewrite H23 at 1. rewrite H12 at 1.
  reflexivity.
Qed.

Lemma grows_refl w : grows w w.
Proof. intros r [n d f] H. exists 0%nat. exact H. Qed.

Lemma grows_trans w1 w2 w3 : grows w1 w2 -> grows w2 w3 -> grows w1 w3.
Proof.
  intros H12 H23 r fn H. destruct (H12 r fn H) as [k Hk].
  destruct (H23 r _ Hk) as [k' Hk']. simpl in Hk'.
  exists (k' + k)%nat. now rewrite <- wraps_add.
Qed.

Lemma grows_alloc w fn : grows w (set_tool_objects (fun h => h ++ [fn]) w).
Proof.
  intros r [n d f] H. exists 0%nat. simpl. now apply lookup_app_l_Some.
Qed.

Lemma grows_wrap w ref :
  grows w (set_tool_objects (alter (wrap_function ref) ref) w).
Proof.
  intros r [n d f] H. simpl. destruct (decide (ref = r)) as [->|Hne].
  - exists 1%nat. rewrite list_lookup_alter_eq, H. reflexivity.
  - exists 0%nat. rewrite list_lookup_alter_ne by exact Hne. exact H.
Qed.

Lemma wrapped_in_grows w w' r n d f :
  wrapped_in w r n d f -> grows w w' -> wrapped_in w' r n d f.
Proof.
  intros [k Hk] Hg. destruct (Hg r _ Hk) as [k' Hk']. simpl in Hk'.
  exists (k' + k)%nat. rewrite Hk'. do 2 f_equal.
  change (Fn_modified_fn (wraps k r f) r) with (wraps (S k) r f).
  rewrite wraps_add. now rewrite Nat.add_succ_r.
Qed.

Section ToolLoop.

Variable E : Collaborators.

Lemma built_later w w1 w' tool t :
  built E w w1 tool t -> grows w1 w' -> built E w w' tool t.
Proof.
  destruct tool as [[r| |]|a|f]; simpl; try tauto.
  - intros [-> H] Hg. split; [reflexivity|]. intros fn Hfn.
    eapply wrapped_in_grows; eauto.
  - intros (r & d & -> & H) Hg. exists r, d. split; [reflexivity|].
    eapply wrapped_in_grows; eauto.
  - intros (r & -> & H) Hg. exists r. split; [reflexivity|].
    eapply wrapped_in_grows; eauto.
Qed.

Lemma built_earlier w w1 w' tool t :
  grows w w1 -> built E w1 w' tool t -> built E w w' tool t.
Proof.
  destruct tool as [[r| |]|a|f]; simpl; try tauto.
  intros Hg [-> H]. split; [reflexivity|]. intros fn Hfn.
  destruct (Hg r fn Hfn) as [k Hk]. destruct (H _ Hk) as [k' Hk']. simpl in Hk'.
  exists (k' + k)%nat. rewrite Hk'. do 2 f_equal.
  change (Fn_modified_fn (wraps k' r (wraps k r (_python_fn fn))) r)
    with (wraps (S k') r (wraps k r (_python_fn fn))).
  now rewrite wraps_add.
Qed.

(** A new tool object, wrapped once. *)
Lemma new_tool_wrapped f name description w :
  let ref := length (tool_objects w) in
  let n := default (callable_name E f) name in
  let d := match description with Some d => Some d | None => callable_doc E f end in
  let w' := set_tool_objects (alter (wrap_function ref) ref)
              (set_tool_objects (fun h => h ++ [mkFunction n d f]) w) in
  (x <- tool_from_function E f name description ;;
   match x with
   | FunctionTool ref =>
       modify (set_tool_objects (alter (wrap_function ref) ref)) ;;; ret x
   | _ => ret x
   end) w = (Return (FunctionTool ref), w')
  /\ only_tools_differ w w' /\ grows w w' /\ wrapped_in w' ref n d f.
Proof.
  intros ref n d w'. repeat split.
  - apply (grows_trans _ _ _ (grows_alloc w _) (grows_wrap _ _)).
  - exists 0%nat. subst w'. simpl. rewrite list_lookup_alter_eq.
    subst ref. rewrite list_lookup_middle by reflexivity. reflexivity.
Qed.

Lemma final_tool_spec tool w :
  exists t w',
    final_tool E tool w = (Return t, w')
    /\ only_tools_differ w w' /\ grows w w' /\ built E w w' tool t.
Proof.
  destruct tool as [t0|a|f].
  - destruct t0 as [r| |].
    + eexists _, _. split; [reflexivity|]. split; [reflexivity|].
      split; [apply grows_wrap|]. split; [reflexivity|].
      intros fn Hfn. exists 0%nat. simpl. rewrite list_lookup_alter_eq, Hfn.
      reflexivity.
    + eexists _, _. repeat split; [apply only_tools_differ_refl|apply grows_refl].
    + eexists _, _. repeat split; [apply only_tools_differ_refl|apply grows_refl].
  - destruct (new_tool_wrapped (Fn_run (assistant_name a))
                (Some ("call_ai_" +:+ assistant_name a))
                (Some (lines
      [ "Use this tool to talk to a sub-AI that can operate independently of";
        "you. The sub-AI may have a different skillset or be able to access";
        "different tools than you. The sub-AI will run one iteration and";
        "respond to you. You may continue to invoke it multiple times in sequence, as";
        "needed. ";
        "";
        "Note: you can only talk to one sub-AI at a time. Do not call in parallel or you will get an error about thread conflicts.";
        "";
        "## Sub-AI Details";
        "";
        "- Name: " +:+ assistant_name a;
        "- Instructions: " +:+ str_option E (assistant_instructions a) ])) w)
      as (Heq & Hd & Hg & Hw).
    eexists _, _. split; [exact Heq|]. split; [exact Hd|]. split; [exact Hg|].
    eexists _, _. split; [reflexivity|exact Hw].
  - destruct (new_tool_wrapped f None None w) as (Heq & Hd & Hg & Hw).
    eexists _, _. split; [exact Heq|]. split; [exact Hd|]. split; [exact Hg|].
    eexists. split; [reflexivity|exact Hw].
Qed.

Lemma final_tools_spec l :
  forall w, exists ts w',
    final_tools E l w = (Return ts, w')
    /\ only_tools_differ w w' /\ grows w w' /\ Forall2 (built E w w') l ts.
Proof.
  induction l as [|tool l IH]; intros w.
  - exists [], w. repeat split;
      [apply only_tools_differ_refl|apply grows_refl|constructor].
  - destruct (final_tool_spec tool w) as (t & w1 & Ht & Hd1 & Hg1 & Hb1).
    destruct (IH w1) as (ts & w' & Hts & Hd2 & Hg2 & Hb2).
    exists (t :: ts), w'. split.
    + simpl. unfold bind at 1. rewrite Ht. unfold bind at 1. rewrite Hts.
      reflexivity.
    + split; [eapply only_tools_differ_trans; eauto|].
      split; [eapply grows_trans; eauto|].
      constructor.
      * eapply built_later; eauto.
      * eapply Forall2_impl; [exact Hb2|]. intros x y Hxy.
        eapply built_earlier; eauto.
Qed.

End ToolLoop.

(** ** One turn *)

Section TurnProperties.

Variable E : Collaborators.

Lemma get_tools_spec self w :
  exists ts w',
    _get_tools E self w = (Return ts, w')
    /\ only_tools_differ w w' /\ grows w w'
    /\ Forall2 (built E w w') (collect_tools self) ts.
Proof. apply final_tools_spec. Qed.

Lemma is_pending_frame w w' task :
  task_objects w' = task_objects w -> is_pending w' task = is_pending w task.
Proof. unfold is_pending, task_get. now intros ->. Qed.

Lemma all_pending_frame self w w' :
  task_objects w' = task_objects w -> all_pending self w' = all_pending self w.
Proof.
  intros H. unfold all_pending. induction (tasks self) as [|t l IH]; simpl.
  - reflexivity.
  - now rewrite IH, (is_pending_frame _ _ _ H).
Qed.

Lemma any_pending_frame self w w' :
  task_objects w' = task_objects w -> any_pending self w' = any_pending self w.
Proof.
  intros H. unfold any_pending. induction (tasks self) as [|t l IH]; simpl.
  - reflexivity.
  - now rewrite IH, (is_pending_frame _ _ _ H).
Qed.

Lemma all_pending_any self w :
  (0 < length (tasks self))%nat ->
  all_pending self w = true -> any_pending self w = true.
Proof.
  unfold all_pending, any_pending. destruct (tasks self) as [|t l]; simpl.
  - lia.
  - intros _ H. apply andb_prop in H as [-> _]. reflexivity.
Qed.

(** A turn assembles the tools, logs one round trip and makes it; it
    raises exactly when the round trip does. *)
Lemma execute_openai_run_unfold self context_ run_kwargs w :
  exists ts w1,
    _get_tools E self w = (Return ts, w1)
    /\ only_tools_differ w w1
    /\ let req := request_of E self context_ run_kwargs w ts in
       let log := run_log w ++ [req] in
       execute_openai_run E self context_ run_kwargs w
       = match Run_run_async E req (set_run_log log w1) with
         | (Return run, w2) =>
             (Return (run, dict_del "thread" (dict_del "model" run_kwargs)),
              after_run run (set_run_log log w2))
         | (Raise e, w2) => (Raise e, set_run_log log w2)
         end.
Proof.
  destruct (get_tools_spec self w) as (ts & w1 & Hts & Hd & _ & _).
  exists ts, w1. split; [exact Hts|]. split; [exact Hd|].
  intros req log. unfold execute_openai_run, dict_pop.
  unfold bind at 1. unfold get at 1. unfold bind at 1. rewrite Hts.
  unfold bind at 1. unfold round_trip.
  assert (Hlog : run_log w1 = run_log w) by (rewrite Hd; reflexivity).
  rewrite Hlog. subst req log. unfold request_of.
  destruct (Run_run_async E _ _) as [[run|e] w2]; reflexivity.
Qed.

End TurnProperties.

(** ** The run loop *)

Section LoopProperties.

Variable E : Collaborators.

(** The loop as the [while] statement reads. *)
Lemma run_loop_while self context_ run_kwargs counter w :
  run_loop E self context_ run_kwargs counter w
  = if any_pending self w && (counter <? max_agent_iterations E)
    then
      match execute_openai_run E self context_ run_kwargs w with
      | (Return (_, run_kwargs'), w') =>
          run_loop E self context_ run_kwargs' (counter + 1) w'
      | (Raise e, w') => (Raise e, w')
      end
    else (Return tt, w).
Proof.
  simp run_loop.
  destruct (Sumbool.sumbool_of_bool
              (any_pending self w && (counter <? max_agent_iterations E)))
    as [H|H]; simpl; rewrite H; reflexivity.
Qed.

(** A turn logs exactly one round trip, whatever its outcome. *)
Lemma execute_openai_run_log self context_ run_kwargs w :
  exists req,
    run_log (snd (execute_openai_run E self context_ run_kwargs w))
    = run_log w ++ [req].
Proof.
  destruct (execute_openai_run_unfold E self context_ run_kwargs w)
    as (ts & w1 & _ & _ & Heq).
  simpl in Heq. rewrite Heq. eexists.
  destruct (Run_run_async E _ _) as [[run|e] w2]; reflexivity.
Qed.

(** A turn raises only what its round trip raised. *)
Lemma execute_openai_run_raise self context_ run_kwargs w e w' :
  execute_openai_run E self context_ run_kwargs w = (Raise e, w') ->
  exists req u, fst (Run_run_async E req u) = Raise e.
Proof.
  destruct (execute_openai_run_unfold E self context_ run_kwargs w)
    as (ts & w1 & _ & _ & Heq).
  simpl in Heq. rewrite Heq. intros H.
  destruct (Run_run_async E _ _) as [[run|e'] w2] eqn:Hrun; [discriminate|].
  injection H as -> _. eexists _, _. rewrite Hrun. reflexivity.
Qed.

Lemma run_loop_raise self context_ n :
  forall run_kwargs counter w e w',
    Z.to_nat (max_agent_iterations E - counter) = n ->
    run_loop E self context_ run_kwargs counter w = (Raise e, w') ->
    exists req u, fst (Run_run_async E req u) = Raise e.
Proof.
  induction n as [|n IH]; intros run_kwargs counter w e w' Hn;
    rewrite run_loop_while.
  - replace (counter <? max_agent_iterations E) with false
      by (symmetry; apply Z.ltb_ge; lia).
    rewrite andb_false_r. discriminate.
  - destruct (any_pending self w && (counter <? max_agent_iterations E));
      [|discriminate].
    destruct (execute_openai_run E self context_ run_kwargs w)
      as [[[run k']|e0] w0] eqn:Hex.
    + apply IH. lia.
    + intros H. injection H as -> _.
      eapply execute_openai_run_raise; eauto.
Qed.

(** The loop makes at most [max_agent_iterations] round trips. *)
Lemma run_loop_bounded self context_ n :
  forall run_kwargs counter w,
    Z.to_nat (max_agent_iterations E - counter) = n ->
    exists reqs,
      run_log (snd (run_loop E self context_ run_kwargs counter w))
      = run_log w ++ reqs
      /\ (length reqs <= n)%nat.
Proof.
  induction n as [|n IH]; intros run_kwargs counter w Hn;
    rewrite run_loop_while.
  - replace (counter <? max_agent_iterations E) with false
      by (symmetry; apply Z.ltb_ge; lia).
    rewrite andb_false_r. exists []. simpl. rewrite app_nil_r. split; [easy|lia].
  - destruct (any_pending self w && (counter <? max_agent_iterations E)).
    + destruct (execute_openai_run_log self context_ run_kwargs w) as [req Hreq].
      destruct (execute_openai_run E self context_ run_kwargs w)
        as [[[run k']|e0] w0] eqn:Hex; simpl in Hreq.
      * destruct (IH k' (counter + 1) w0 ltac:(lia)) as (reqs & Hlog & Hlen).
        exists (req :: reqs). rewrite Hlog, Hreq, <- app_assoc. simpl.
        split; [reflexivity|lia].
      * exists [req]. simpl. split; [exact Hreq|lia].
    + exists []. simpl. rewrite app_nil_r. split; [easy|lia].
Qed.

(** As long as every turn returns and leaves the tasks PENDING, the loop
    goes on to the end of its budget: started after [j] turns with
    [counter = j - 1], it makes the turns that are left. *)
Lemma run_loop_turns self context_ run_kwargs w :
  (0 < length (tasks self))%nat ->
  forall m j counter k0 w0,
    Z.to_nat (max_agent_iterations E - counter) = m ->
    (forall n, (j <= n <= j + m)%nat ->
       exists k' w',
         turns E self context_ n run_kwargs w = (Return k', w')
         /\ all_pending self w' = true) ->
    turns E self context_ j run_kwargs w = (Return k0, w0) ->
    exists k' w',
      turns E self context_ (j + m) run_kwargs w = (Return k', w')
      /\ run_loop E self context_ k0 counter w0 = (Return tt, w')
      /\ length (run_log w') = (length (run_log w0) + m)%nat.
Proof.
  intros Hsome. induction m as [|m IH]; intros j counter k0 w0 Hm Hturns Hj;
    rewrite run_loop_while.
  - replace (counter <? max_agent_iterations E) with false
      by (symmetry; apply Z.ltb_ge; lia).
    rewrite andb_false_r, Nat.add_0_r. exists k0, w0.
    repeat split; [exact Hj|lia].
  - destruct (Hturns j ltac:(lia)) as (k0' & w0' & Hj' & Hp).
    rewrite Hj in Hj'. injection Hj' as <- <-.
    rewrite (all_pending_any _ _ Hsome Hp).
    replace (counter <? max_agent_iterations E) with true
      by (symmetry; apply Z.ltb_lt; lia).
    simpl.
    destruct (Hturns (S j) ltac:(lia)) as (k1 & w1 & Hj1 & _).
    destruct (execute_openai_run_log self context_ k0 w0) as [req Hreq].
    simpl in Hj1. rewrite Hj in Hj1.
    destruct (execute_openai_run E self context_ k0 w0) as [[[run k1']|e] w1']
      eqn:Hex; [|discriminate].
    simpl in Hj1, Hreq. injection Hj1 as <- <-.
    destruct (IH (S j) (counter + 1) k1' w1') as (k' & w' & Hend & Hloop & Hlog).
    + lia.
    + intros n Hn. apply Hturns. lia.
    + simpl. rewrite Hj, Hex. reflexivity.
    + exists k', w'. rewrite Nat.add_succ_r. split; [exact Hend|].
      split; [exact Hloop|]. rewrite Hlog, Hreq, length_app. simpl. lia.
Qed.


(** The results of a run, as the spec words them: the [result] of the
    COMPLETED tasks, in the order of the task list. *)
Lemma completed_results_filter self w :
  completed_results self w
  = map result
      (List.filter (fun t => status_eqb (status t) COMPLETED)
                   (omap (task_get w) (tasks self))).
Proof.
  unfold completed_results. induction (tasks self) as [|t l IH]; simpl.
  - reflexivity.
  - destruct (task_get w t) as [o|]; simpl; [|exact IH].
    destruct (status_eqb (status o) COMPLETED); simpl; now rewrite IH.
Qed.

Lemma all_pending_no_results self w :
  all_pending self w = true -> completed_results self w = [].
Proof.
  unfold all_pending, completed_results, is_pending.
  induction (tasks self) as [|t l IH]; simpl; [reflexivity|].
  intros H. apply andb_prop in H as [Ht Hl].
  destruct (task_get w t) as [o|]; [|discriminate].
  destruct (status o); try discriminate. simpl. now apply IH.
Qed.

End LoopProperties.

(** ** The tools that [_get_tools] adds *)

Section AddedTools.

Variable self : Agent.

Lemma collect_tools_eq :
  collect_tools self
  = given_tools self
    ++ (match tasks self with [] => [ToolCallable Fn_end_run] | _ :: _ => [] end)
    ++ task_tools self (numbered_tasks self)
    ++ (if user_access self then [ToolCallable Fn_talk_to_human] else []).
Proof.
  unfold collect_tools, given_tools, task_tools.
  destruct (tasks self), (user_access self); simpl;
    rewrite <- ?app_assoc; simpl; rewrite ?app_nil_r; reflexivity.
Qed.

Lemma added_tools_eq :
  added_tools self
  = (match tasks self with [] => [ToolCallable Fn_end_run] | _ :: _ => [] end)
    ++ task_tools self (numbered_tasks self)
    ++ (if user_access self then [ToolCallable Fn_talk_to_human] else []).
Proof.
  unfold added_tools. rewrite collect_tools_eq. apply drop_app_length.
Qed.

Lemma collect_tools_added :
  collect_tools self = given_tools self ++ added_tools self.
Proof. rewrite added_tools_eq. apply collect_tools_eq. Qed.

Lemma task_tools_count (p : Tool -> bool) l :
  (forall task id e, p (ToolCallable (Fn_complete task id e))
                     || p (ToolCallable (Fn_fail task id e)) = false) ->
  List.filter p (task_tools self l) = [].
Proof.
  intros Hp. induction l as [|[id task] l IH]; simpl; [reflexivity|].
  specialize (Hp task id (early_end_run self)).
  apply orb_false_elim in Hp as [-> ->]. exact IH.
Qed.

Lemma task_tools_complete l :
  length (List.filter is_complete (task_tools self l)) = length l.
Proof. induction l as [|[id task] l IH]; simpl; [reflexivity|now rewrite IH]. Qed.

Lemma task_tools_fail l :
  length (List.filter is_fail (task_tools self l)) = length l.
Proof. induction l as [|[id task] l IH]; simpl; [reflexivity|now rewrite IH]. Qed.

Lemma task_tools_length l : length (task_tools self l) = (2 * length l)%nat.
Proof. induction l as [|[id task] l IH]; simpl; [reflexivity|rewrite IH; lia]. Qed.

Lemma task_tools_flag l :
  Forall (fun t =>
            forall task id e,
              t = ToolCallable (Fn_complete task id e)
              \/ t = ToolCallable (Fn_fail task id e) ->
              e = early_end_run self)
         (task_tools self l).
Proof.
  induction l as [|[id task] l IH]; simpl; [constructor|].
  constructor; [|constructor; [|exact IH]];
    intros task' id' e' [H|H]; congruence.
Qed.

Lemma existsb_filter {A} (p : A -> bool) l :
  existsb p l = true <-> List.filter p l <> [].
Proof.
  induction l as [|x l IH]; simpl.
  - split; [discriminate|congruence].
  - destruct (p x); simpl; [split; [discriminate|reflexivity]|exact IH].
Qed.

Lemma added_end_run :
  List.filter is_end_run (added_tools self)
  = match tasks self with [] => [ToolCallable Fn_end_run] | _ :: _ => [] end.
Proof.
  rewrite added_tools_eq, !List.filter_app.
  rewrite (task_tools_count is_end_run) by reflexivity.
  destruct (tasks self), (user_access self); reflexivity.
Qed.

Lemma added_talk_to_human :
  List.filter is_talk_to_human (added_tools self)
  = if user_access self then [ToolCallable Fn_talk_to_human] else [].
Proof.
  rewrite added_tools_eq, !List.filter_app.
  rewrite (task_tools_count is_talk_to_human) by reflexivity.
  destruct (tasks self), (user_access self); reflexivity.
Qed.

Lemma added_complete :
  length (List.filter is_complete (added_tools self)) = length (tasks self).
Proof.
  rewrite added_tools_eq, !List.filter_app, !length_app, task_tools_complete.
  unfold numbered_tasks. rewrite length_imap.
  destruct (tasks self), (user_access self); simpl; lia.
Qed.

Lemma added_fail :
  length (List.filter is_fail (added_tools self)) = length (tasks self).
Proof.
  rewrite added_tools_eq, !List.filter_app, !length_app, task_tools_fail.
  unfold numbered_tasks. rewrite length_imap.
  destruct (tasks self), (user_access self); simpl; lia.
Qed.

Lemma added_length :
  length (added_tools self)
  = ((match tasks self with [] => 1 | _ :: _ => 0 end)
     + 2 * length (tasks self)
     + (if user_access self then 1 else 0))%nat.
Proof.
  rewrite added_tools_eq, !length_app, task_tools_length.
  unfold numbered_tasks. rewrite length_imap.
  destruct (tasks self), (user_access self); simpl; lia.
Qed.

Lemma added_task_tools i task :
  tasks self !! i = Some task ->
  In (ToolCallable (Fn_complete task (i + 1) (early_end_run self)))
     (added_tools self)
  /\ In (ToolCallable (Fn_fail task (i + 1) (early_end_run self)))
        (added_tools self).
Proof.
  intros Hi. rewrite added_tools_eq.
  assert (Hn : In ((i + 1)%nat, task) (numbered_tasks self)).
  { apply list_elem_of_In, list_elem_of_lookup. exists i.
    unfold numbered_tasks. rewrite list_lookup_imap, Hi. reflexivity. }
  split; apply in_or_app; right; apply in_or_app; left;
    apply in_flat_map; exists ((i + 1)%nat, task); (split; [exact Hn|]);
    simpl; auto.
Qed.

Lemma added_flag :
  Forall (fun t =>
            forall task id e,
              t = ToolCallable (Fn_complete task id e)
              \/ t = ToolCallable (Fn_fail task id e) ->
              e = early_end_run self)
         (added_tools self).
Proof.
  rewrite added_tools_eq. apply Forall_app. split; [|apply Forall_app; split].
  - destruct (tasks self); repeat constructor; intros ? ? ? [H|H]; discriminate.
  - apply task_tools_flag.
  - destruct (user_access self); repeat constructor;
      intros ? ? ? [H|H]; discriminate.
Qed.

End AddedTools.

Lemma Forall2_In_l {A B} (R : A -> B -> Prop) l k x :
  Forall2 R l k -> In x l -> exists y, In y k /\ R x y.
Proof.
  induction 1 as [|a b l k Hab _ IH]; simpl; [tauto|].
  intros [->|Hx]; [eauto|]. destruct (IH Hx) as (y & Hy & Hxy). eauto.
Qed.

Lemma early_end_run_iff self :
  early_end_run self = true
  <-> system_access self = false /\ length (tasks self) = 1%nat.
Proof.
  unfold early_end_run. rewrite andb_true_iff, negb_true_iff, Nat.eqb_eq.
  reflexivity.
Qed.

(** ** Calling a wrapped tool *)

Section WrappedCalls.

Variable E : Collaborators.

(** [modified_fn] binds any arguments: all its parameters are starred or
    have defaults. *)
Lemma modified_fn_binds a : is_Some (sig_bind (mkSignature [] (Some "args")
                               [optional "original_fn" VNone; optional "tool" VNone]
                               (Some "kwargs")) a).
Proof.
  unfold sig_bind. simpl bind_positional. cbv iota beta.
  destruct (bind_kwonly_defaults
              [optional "original_fn" VNone; optional "tool" VNone] (kw a))
    as [[b2 kw2] Hb].
  { repeat constructor; discriminate. }
  simpl sig_kwonly. rewrite Hb. simpl sig_varargs. simpl sig_varkw.
  destruct (pos a), kw2; eauto.
Qed.

(** A call that returned had arguments that fit the signature. *)
Lemma call_return_bound f a w v w' :
  call E f a w = (Return v, w') -> is_Some (sig_bind (signature E f) a).
Proof.
  destruct f; try (simpl; destruct (sig_bind _ a); [eauto|discriminate]).
  intros _. apply modified_fn_binds.
Qed.

(** One wrapper, arguments without its two names: the value of the
    wrapped function, and one artifact more. *)
Lemma modified_fn_return f ref a w v w1 fn :
  dict_get "original_fn" (kw a) = None ->
  dict_get "tool" (kw a) = None ->
  call E f a w = (Return v, w1) ->
  tool_objects w1 !! ref = Some fn ->
  exists md,
    call E (Fn_modified_fn f ref) a w
    = (Return v, add_artifact (result_artifact md) w1).
Proof.
  intros Ho Ht Hcall Hfn.
  destruct (call_return_bound _ _ _ _ _ Hcall) as [b Hb].
  simpl. rewrite Ho, Ht, (forwarded_args a Ho Ht).
  unfold bind at 1. rewrite Hcall, Hb.
  unfold bind at 1. unfold get at 1. rewrite Hfn.
  eexists. reflexivity.
Qed.


(** A keyword argument named [tool] or [original_fn] never reaches the
    wrapped function, and the wrapper does not return. *)
Lemma modified_fn_keyword f ref a w :
  dict_get "original_fn" (kw a) <> None \/ dict_get "tool" (kw a) <> None ->
  exists e, fst (call E (Fn_modified_fn f ref) a w) = Raise e.
Proof.
  intros H. simpl.
  destruct (dict_get "original_fn" (kw a)); [eexists; reflexivity|].
  destruct H as [H|H]; [congruence|].
  unfold bind at 1.
  destruct (call E f _ w) as [[v|e] w1]; [|eexists; reflexivity].
  destruct (sig_bind _ _); [|eexists; reflexivity].
  destruct (dict_get "tool" (kw a)); [eexists; reflexivity|congruence].
Qed.

Lemma add_artifacts_tools arts w :
  tool_objects (add_artifacts arts w) = tool_objects w.
Proof.
  revert w. induction arts as [|x arts IH]; intros w; simpl; [reflexivity|].
  now rewrite IH.
Qed.

Lemma add_artifacts_snoc arts x w :
  add_artifacts (arts ++ [x]) w = add_artifact x (add_artifacts arts w).
Proof. unfold add_artifacts. now rewrite fold_left_app. Qed.

(** Any number of wrappers: the same value, one artifact per wrapper. *)
Lemma wraps_return k : forall f ref a w v w1 fn,
  dict_get "original_fn" (kw a) = None ->
  dict_get "tool" (kw a) = None ->
  call E f a w = (Return v, w1) ->
  tool_objects w1 !! ref = Some fn ->
  exists arts,
    length arts = k
    /\ Forall (fun x => art_kind x = MarkdownArtifact /\ art_key x = "result") arts
    /\ call E (wraps k ref f) a w = (Return v, add_artifacts arts w1).
Proof.
  induction k as [|k IH]; intros f ref a w v w1 fn Ho Ht Hcall Hfn.
  - exists []. repeat split; [constructor|exact Hcall].
  - destruct (IH f ref a w v w1 fn Ho Ht Hcall Hfn) as (arts & Hlen & Hkind & Hk).
    destruct (modified_fn_return (wraps k ref f) ref a w v _ fn Ho Ht Hk)
      as [md Hmd].
    { now rewrite add_artifacts_tools. }
    exists (arts ++ [result_artifact md]). split; [|split].
    + rewrite length_app. simpl. lia.
    + apply Forall_app. split; [exact Hkind|]. repeat constructor.
    + change (wraps (S k) ref f) with (Fn_modified_fn (wraps k ref f) ref).
      rewrite Hmd, add_artifacts_snoc. reflexivity.
Qed.


(** The tools of [_get_tools] when the arguments do not use the two
    names: a function tool of the final list returns what the function
    it was built around returns, and records artifacts. *)
Lemma wrapped_tool_same_result w' ref name description f a u v u1 fn1 :
  wrapped_in w' ref name description f ->
  dict_get "original_fn" (kw a) = None ->
  dict_get "tool" (kw a) = None ->
  call E f a u = (Return v, u1) ->
  tool_objects u1 !! ref = Some fn1 ->
  exists fn arts,
    tool_objects w' !! ref = Some fn
    /\ arts <> []
    /\ call E (_python_fn fn) a u = (Return v, add_artifacts arts u1).
Proof.
  intros [k Hk] Ho Ht Hcall Hfn1.
  destruct (wraps_return (S k) f ref a u v u1 fn1 Ho Ht Hcall Hfn1)
    as (arts & Hlen & _ & Hc).
  eexists _, arts. split; [exact Hk|]. split; [|exact Hc].
  destruct arts; [discriminate|congruence].
Qed.

End WrappedCalls.

(** * The claims *)

(** ** The run loop: C1, C2, C4 *)

(** C1.  An agent with [system_access = False] that has at least one
    task, all of whose turns return and leave every task PENDING, makes
    exactly [1 + max_agent_iterations] model invocations in [run_async]
    (one on entry and [max_agent_iterations] in the loop), then stops and
    returns the empty list, its tasks still PENDING. *)
Theorem run_async_budget_exhausted E self context_ run_kwargs w :
  system_access self = false ->
  (0 < length (tasks self))%nat ->
  0 <= max_agent_iterations E ->
  (forall n,
     (1 <= n <= 1 + Z.to_nat (max_agent_iterations E))%nat ->
     exists k' w',
       turns E self context_ n run_kwargs w = (Return k', w')
       /\ all_pending self w' = true) ->
  exists w',
    run_async E self context_ run_kwargs w = (Return [], w')
    /\ Z.of_nat (length (run_log w'))
       = Z.of_nat (length (run_log w)) + 1 + max_agent_iterations E
    /\ all_pending self w' = true.
Proof.
  intros Hsys Hsome Hmax Hturns.
  destruct (Hturns 1%nat ltac:(lia)) as (k1 & w1 & H1 & _).
  destruct (execute_openai_run_log E self context_ run_kwargs w) as [req Hreq].
  assert (Hex : exists run,
             execute_openai_run E self context_ run_kwargs w
             = (Return (run, k1), w1)).
  { simpl in H1.
    destruct (execute_openai_run E self context_ run_kwargs w)
      as [[[run k]|e] w0]; [|discriminate].
    injection H1 as <- <-. eauto. }
  destruct Hex as [run Hex]. rewrite Hex in Hreq. simpl in Hreq.
  destruct (run_loop_turns E self context_ run_kwargs w Hsome
              (Z.to_nat (max_agent_iterations E)) 1%nat 0 k1 w1
              ltac:(f_equal; lia) Hturns H1)
    as (k' & w' & Hend & Hloop & Hlog).
  destruct (Hturns (1 + Z.to_nat (max_agent_iterations E))%nat ltac:(lia))
    as (k'' & w'' & Hend' & Hp).
  rewrite Hend in Hend'. injection Hend' as <- <-.
  exists w'. split; [|split; [|exact Hp]].
  - unfold run_async. unfold bind at 1. rewrite Hex, Hsys. simpl.
    unfold bind at 1. rewrite Hloop. unfold bind, get, ret.
    now rewrite (all_pending_no_results self w' Hp).
  - rewrite Hlog, Hreq, length_app. simpl. lia.
Qed.

Lemma run_async_budget_exhausted_witness :
  let E := Scenario.with_model 3 Scenario.idle in
  let self := Scenario.agent_of [0%nat] false in
  let w := Scenario.one_task "sum 2 and 3" TyInt in
  (system_access self = false /\ (0 < length (tasks self))%nat)
  /\ exists w',
       run_async E self None [] w = (Return [], w')
       /\ Z.of_nat (length (run_log w')) = 0 + 1 + 3
       /\ all_pending self w' = true.
Proof.
  intros E self w. split; [split; [reflexivity|simpl; lia]|].
  apply (run_async_budget_exhausted E self None [] w).
  - reflexivity.
  - simpl. lia.
  - simpl. lia.
  - intros n Hn.
    assert (Hcases : n = 1%nat \/ n = 2%nat \/ n = 3%nat \/ n = 4%nat)
      by (simpl in Hn; lia).
    destruct Hcases as [-> | [-> | [-> | ->]]]; eexists _, _;
      (split; [vm_compute; reflexivity|vm_compute; reflexivity]).
Defined.

(** C2.  For every agent, when [run_async] returns it returns exactly the
    [result] of the tasks whose status is COMPLETED at the end of the
    loop, in the order of the task list: PENDING and FAILED tasks give no
    element.  It fails to return only when a model invocation raised, and
    then raises the same exception. *)
Theorem run_async_returns_completed_results E self context_ run_kwargs w :
  match run_async E self context_ run_kwargs w with
  | (Return v, w') =>
      v = map result
            (List.filter (fun t => status_eqb (status t) COMPLETED)
                         (omap (task_get w') (tasks self)))
  | (Raise e, _) => exists req u, fst (Run_run_async E req u) = Raise e
  end.
Proof.
  unfold run_async. unfold bind at 1.
  destruct (execute_openai_run E self context_ run_kwargs w)
    as [[r|e] w0] eqn:Hex.
  - unfold bind at 1.
    destruct (negb (system_access self)).
    + destruct (run_loop E self context_ (snd r) 0 w0) as [[[]|e] w1] eqn:Hloop.
      * unfold bind, get, ret. apply completed_results_filter.
      * eapply run_loop_raise; eauto.
    + unfold ret at 1. unfold bind, get, ret. apply completed_results_filter.
  - eapply execute_openai_run_raise; eauto.
Qed.

(** C4.  An agent with [system_access = True] makes exactly one model
    invocation in [run_async] and does not enter the loop, whatever the
    status of its tasks, the value of [max_agent_iterations] and the
    outcome of the invocation. *)
Theorem run_async_system_access_one_turn E self context_ run_kwargs w :
  system_access self = true ->
  exists req,
    run_log (snd (run_async E self context_ run_kwargs w)) = run_log w ++ [req].
Proof.
  intros Hsys.
  destruct (execute_openai_run_log E self context_ run_kwargs w) as [req Hreq].
  exists req. unfold run_async. unfold bind at 1.
  destruct (execute_openai_run E self context_ run_kwargs w) as [[r|e] w0];
    simpl in Hreq; [|exact Hreq].
  rewrite Hsys. exact Hreq.
Qed.

Lemma run_async_system_access_one_turn_witness :
  let E := Scenario.with_model 3 Scenario.idle in
  let self := Scenario.agent_of [0%nat] true in
  let w := Scenario.one_task "sum 2 and 3" TyInt in
  (system_access self = true /\ all_pending self w = true)
  /\ exists req, run_log (snd (run_async E self None [] w)) = [] ++ [req].
Proof.
  intros E self w. split; [split; reflexivity|].
  apply (run_async_system_access_one_turn E self None [] w). reflexivity.
Defined.

(** ** The tool list: C3, C5 *)

(** C3.  The complete and fail tools that [_get_tools] creates for the
    tasks all carry one [end_run] flag, which is true if and only if
    [system_access] is false and the agent has exactly one task; with
    [system_access] true or with two or more tasks the flag is false (and
    with no task there is no such tool).  The tools reach the final list:
    for every task the list holds a function tool around its complete
    tool and one around its fail tool, made with that flag. *)
Theorem get_tools_early_end_run E self w :
  exists e ts w',
    (e = true <-> system_access self = false /\ length (tasks self) = 1%nat)
    /\ Forall (fun t =>
                 forall task id e',
                   t = ToolCallable (Fn_complete task id e')
                   \/ t = ToolCallable (Fn_fail task id e') ->
                   e' = e)
              (added_tools self)
    /\ _get_tools E self w = (Return ts, w')
    /\ forall i task,
         tasks self !! i = Some task ->
         exists rc rf,
           In (FunctionTool rc) ts /\ In (FunctionTool rf) ts
           /\ wrapped_in w' rc
                         (callable_name E (Fn_complete task (i + 1) e))
                         (callable_doc E (Fn_complete task (i + 1) e))
                         (Fn_complete task (i + 1) e)
           /\ wrapped_in w' rf
                         (callable_name E (Fn_fail task (i + 1) e))
                         (callable_doc E (Fn_fail task (i + 1) e))
                         (Fn_fail task (i + 1) e).
Proof.
  destruct (get_tools_spec E self w) as (ts & w' & Hts & _ & _ & Hb).
  exists (early_end_run self), ts, w'.
  split; [apply early_end_run_iff|]. split; [apply added_flag|].
  split; [exact Hts|]. intros i task Hi.
  destruct (added_task_tools self i task Hi) as [Hc Hf].
  rewrite collect_tools_added in Hb.
  destruct (Forall2_In_l _ _ _ _ Hb (in_or_app _ _ _ (or_intror Hc)))
    as (tc & Hinc & rc & -> & Hwc).
  destruct (Forall2_In_l _ _ _ _ Hb (in_or_app _ _ _ (or_intror Hf)))
    as (tf & Hinf & rf & -> & Hwf).
  exists rc, rf. auto.
Qed.

(** C5.  The list that [_get_tools] builds holds, in this order, the tools
    of the flow, of the agent and of the assistant, then the tools it
    adds: the [end_run] tool if and only if the agent has no task, one
    complete tool and one fail tool for every task, and the
    [talk_to_human] tool if and only if [user_access] is true; it adds
    nothing else.  Every entry of the final list is built from the entry
    of the same rank. *)
Theorem get_tools_contents E self w :
  exists ts w',
    _get_tools E self w = (Return ts, w')
    /\ Forall2 (built E w w') (given_tools self ++ added_tools self) ts
    /\ (existsb is_end_run (added_tools self) = true <-> tasks self = [])
    /\ (forall i task,
          tasks self !! i = Some task ->
          exists e,
            In (ToolCallable (Fn_complete task (i + 1) e)) (added_tools self)
            /\ In (ToolCallable (Fn_fail task (i + 1) e)) (added_tools self))
    /\ length (List.filter is_complete (added_tools self)) = length (tasks self)
    /\ length (List.filter is_fail (added_tools self)) = length (tasks self)
    /\ (existsb is_talk_to_human (added_tools self) = true
        <-> user_access self = true)
    /\ length (added_tools self)
       = (length (List.filter is_end_run (added_tools self))
          + 2 * length (tasks self)
          + length (List.filter is_talk_to_human (added_tools self)))%nat.
Proof.
  destruct (get_tools_spec E self w) as (ts & w' & Hts & _ & _ & Hb).
  exists ts, w'. split; [exact Hts|].
  split; [now rewrite <- collect_tools_added|].
  split.
  { rewrite existsb_filter, added_end_run.
    destruct (tasks self); split; congruence. }
  split.
  { intros i task Hi. exists (early_end_run self).
    now apply added_task_tools. }
  split; [apply added_complete|]. split; [apply added_fail|].
  split.
  { rewrite existsb_filter, added_talk_to_human.
    destruct (user_access self); split; congruence. }
  rewrite added_length, added_end_run, added_talk_to_human.
  destruct (tasks self), (user_access self); reflexivity.
Qed.

(** ** Wrapped tools: C6 *)

(** C6.  The claim is that a tool wrapped by [_get_tools] returns, for
    every argument list the original function accepts, what the original
    returns.  The wrapper misses it for a keyword argument named [tool]
    (or [original_fn]): the agent below is given [def echo(tool): return
    tool]; called with [tool="hammer"] the function returns ["hammer"],
    the function tool that [_get_tools] built around it raises
    [TypeError], because [modified_fn] takes the keyword for its own
    parameter [tool] and calls [echo] without argument.  Without these two
    keywords the wrapped tool returns the value of the original
    ([wrapped_tool_same_result]). *)
Theorem wrapped_tool_takes_keyword_tool :
  let E := Scenario.with_model 3 Scenario.idle in
  let self := mkAgent [] Scenario.the_flow Scenario.the_assistant
                      [ToolCallable (Fn_def "echo")] [] false false None in
  let a := mkArgs [] [("tool", VStr "hammer")] in
  exists ts w' fn,
    _get_tools E self Scenario.empty_world = (Return (FunctionTool 0 :: ts), w')
    /\ tool_objects w' !! 0%nat = Some fn
    /\ _python_fn fn = Fn_modified_fn (Fn_def "echo") 0
    /\ sig_bind (signature E (Fn_def "echo")) a = Some [("tool", AVal (VStr "hammer"))]
    /\ fst (call E (Fn_def "echo") a w') = Return (VStr "hammer")
    /\ fst (call E (_python_fn fn) a w')
       = Raise (TypeError "arguments do not match the signature").
Proof.
  intros E self a. eexists _, _, _.
  split; [reflexivity|]. split; [reflexivity|]. repeat split.
Qed.

(** ** [run_agent]: C7 *)

(** C7.  [run_agent] with a task: when the run of the agent has returned,
    the call returns the (coerced) result stored in the task if the task
    is COMPLETED, raises [ValueError] with the error message of the task
    if it is FAILED, and returns [None] without raising if the task is
    still PENDING, as it is when the iteration budget ran out. *)
Theorem run_agent_single_task E s cast context_ user_access_ model agent_kwargs
  w v w' t :
  s <> "" ->
  let t0 := length (task_objects w) in
  let w1 :=
    set_task_objects (fun h =>
      h ++ [mkAITask s PENDING VNone None (_default_context context_) None
                     (default TyStr cast)]) w in
  let agent :=
    new_Agent E (mkAgentArgs [t0] (ctx_flow w) (kw_assistant agent_kwargs)
                             (kw_tools agent_kwargs) None user_access_
                             (kw_system_access agent_kwargs)
                             (kw_instructions agent_kwargs)) w1 in
  run_async E agent None [("model", model)] w1 = (Return v, w') ->
  task_get w' t0 = Some t ->
  run_agent E (Some s) cast context_ user_access_ model agent_kwargs w
  = (match status t with
     | COMPLETED => Return (result t)
     | FAILED => Raise (ValueError (opt_val (error t)))
     | PENDING => Return VNone
     end, w').
Proof.
  intros Hs t0 w1 agent Hrun Ht.
  assert (Htruthy : opt_truthy (Some s) = true).
  { simpl. destruct (String.eqb_spec s ""); [contradiction|reflexivity]. }
  unfold run_agent. rewrite Htruthy.
  assert (Hcast : match cast with Some c => c | None => TyStr end
                  = default TyStr cast) by now destruct cast.
  rewrite Hcast.
  unfold new_AITask, bind, get, ret, modify. cbv beta.
  change (default "" (Some s)) with s.
  subst t0 w1 agent. rewrite Hrun, Ht.
  destruct (status t); reflexivity.
Qed.

Lemma run_agent_single_task_witness :
  let E := Scenario.with_model 3
             (Scenario.calling [("fail_task_1", mkArgs [] [("message", VStr "no data")])]) in
  "sum 2 and 3" <> ""
  /\ exists w',
       run_agent E (Some "sum 2 and 3") None None None VNone
                 (mkAgentKwargs None [] None None) Scenario.empty_world
       = (Raise (ValueError (VStr "no data")), w').
Proof.
  intros E. split; [discriminate|]. eexists.
  refine (run_agent_single_task E "sum 2 and 3" None None None VNone
            (mkAgentKwargs None [] None None) Scenario.empty_world _ _
            (mkAITask "sum 2 and 3" FAILED VNone (Some "no data") [] None TyStr)
            _ _ _).
  - discriminate.
  - vm_compute. reflexivity.
  - reflexivity.
Defined.

(** ** Instructions: C8 *)

(** C8.  [_get_instructions] reads the agent (with its flow, its assistant
    and its context), the task objects of the agent, the context it is
    given and the list of instructions of the ambient context [ctx], and
    nothing else: two calls in states that agree on these give the same
    text, byte for byte, whatever else differs. *)
Theorem get_instructions_deterministic E self context_ w1 w2 :
  ctx_instructions w1 = ctx_instructions w2 ->
  map (task_get w1) (tasks self) = map (task_get w2) (tasks self) ->
  _get_instructions E self context_ w1 = _get_instructions E self context_ w2.
Proof.
  intros Hctx Htasks. unfold _get_instructions, INSTRUCTIONS. rewrite Hctx.
  assert (Hget : forall t, In t (tasks self) -> task_get w1 t = task_get w2 t).
  { now apply map_ext_in_iff. }
  assert (Hmap :
    map (fun it => match task_get w1 it.2 with
                   | Some t => render_task E it.1 t
                   | None => ""
                   end) (numbered_tasks self)
    = map (fun it => match task_get w2 it.2 with
                     | Some t => render_task E it.1 t
                     | None => ""
                     end) (numbered_tasks self)).
  { apply map_ext_in. intros [id task] Hin. simpl.
    rewrite Hget; [reflexivity|].
    apply list_elem_of_In, list_elem_of_lookup in Hin as [i Hi].
    unfold numbered_tasks in Hi. rewrite list_lookup_imap in Hi.
    destruct (tasks self !! i) as [task'|] eqn:Hti; [|discriminate].
    injection Hi as _ <-.
    apply list_elem_of_In, list_elem_of_lookup. eauto. }
  rewrite Hmap. reflexivity.
Qed.

Lemma get_instructions_deterministic_witness :
  let E := Scenario.with_model 3 Scenario.idle in
  let self := Scenario.agent_of [0%nat] false in
  let w1 := Scenario.one_task "sum 2 and 3" TyInt in
  let w2 := print "hello" (add_artifact (result_artifact "x") w1) in
  (ctx_instructions w1 = ctx_instructions w2
   /\ map (task_get w1) (tasks self) = map (task_get w2) (tasks self))
  /\ _get_instructions E self (Some [("k", VInt 3)]) w1
     = _get_instructions E self (Some [("k", VInt 3)]) w2.
Proof.
  intros E self w1 w2. split; [split; reflexivity|].
  apply (get_instructions_deterministic E self (Some [("k", VInt 3)]) w1 w2);
    reflexivity.
Defined.

(** ** Orchestrator events: C9 *)

(** C9.  Each of the five orchestrator events, constructed from the
    fields its class requires, refers to the orchestrator it was given and
    has [persist] false; it carries the name of its class;
    [orchestrator-error] also carries the error, the two agent-turn
    events also carry the agent, and no other event has these fields. *)
Theorem orchestrator_events_unpersisted (Orchestrator Agent Exception : Type)
  (o : Orchestrator) (a : Agent) (x : Exception) :
  let evs : list (Events.OrchestratorEvent Orchestrator Agent Exception) :=
    [ Events.EvStart (Events.new_OrchestratorStart None o);
      Events.EvEnd (Events.new_OrchestratorEnd None o);
      Events.EvError (Events.new_OrchestratorError None o x);
      Events.EvTurnStart (Events.new_AgentTurnStart None o a);
      Events.EvTurnEnd (Events.new_AgentTurnEnd None o a) ] in
  (forall ev : Events.OrchestratorEvent Orchestrator Agent Exception,
     Events.constructed ev -> Events.persist ev = false)
  /\ Forall (fun ev => Events.constructed ev
                       /\ Events.persist ev = false
                       /\ Events.orchestrator ev = o) evs
  /\ map Events.event evs
     = [ "orchestrator-start"; "orchestrator-end"; "orchestrator-error";
         "agent-turn-start"; "agent-turn-end" ]
  /\ map Events.error_of evs = [None; None; Some x; None; None]
  /\ map Events.agent_of evs = [None; None; None; Some a; Some a].
Proof.
  intros evs. split; [|split; [|repeat split]].
  - intros ev Hev. destruct Hev; reflexivity.
  - repeat constructor.
Qed.

(** ** Default access flags: C10 *)

(** C10.  An [Agent] constructed without [user_access] and without
    [system_access] has both flags false.  So [_get_tools] adds no
    [talk_to_human] tool for it, and its [run_async] is the entry turn
    followed by the loop, not the single turn of [system_access]. *)
Theorem default_access_is_false E tasks_ flow_ assistant_ tools_ context_
  instructions_ w :
  let self :=
    new_Agent E (mkAgentArgs tasks_ flow_ assistant_ tools_ context_
                             None None instructions_) w in
  user_access self = false
  /\ system_access self = false
  /\ List.filter is_talk_to_human (added_tools self) = []
  /\ forall c k u,
       run_async E self c k u
       = (r <- execute_openai_run E self c k ;;
          run_loop E self c (snd r) 0 ;;;
          w' <- get ;;
          ret (completed_results self w'))%py u.
Proof.
  intros self. split; [reflexivity|]. split; [reflexivity|]. split.
  - rewrite added_talk_to_human. reflexivity.
  - reflexivity.
Qed.

(** ** The scenarios of the spec, run on the model *)

Module Examples.

Import Scenario.

(** One task, completed in the first turn: one round trip, result [[5]]. *)
Example sum_completed_first_turn :
  let E := with_model 5 (calling [("complete_task_1", mkArgs [] [("result", VInt 5)])]) in
  let r := run_async E (agent_of [0%nat] false) None [] (one_task "sum 2 and 3" TyInt) in
  fst r = Return [VInt 5] /\ length (run_log (snd r)) = 1%nat.
Proof. split; reflexivity. Qed.

(** Two tasks, both completed in the first turn: one round trip. *)
Example two_tasks_completed_first_turn :
  let E := with_model 5
             (calling [ ("complete_task_1", mkArgs [] [("result", VInt 1)]);
                        ("complete_task_2", mkArgs [] [("result", VStr "two")]) ]) in
  let w := mkWorld [task "first" TyInt; task "second" TyStr] [] [] [] [] None [] [] in
  let r := run_async E (agent_of [0%nat; 1%nat] false) None [] w in
  fst r = Return [VInt 1; VStr "two"] /\ length (run_log (snd r)) = 1%nat.
Proof. split; reflexivity. Qed.

(** A value that is not of the type of the task is refused: the task
    stays PENDING and the loop goes on to the end of the budget. *)
Example refused_result_stays_pending :
  let E := with_model 3 (calling [("complete_task_1", mkArgs [] [("result", VStr "five")])]) in
  let r := run_async E (agent_of [0%nat] false) None [] (one_task "sum 2 and 3" TyInt) in
  fst r = Return [] /\ length (run_log (snd r)) = 4%nat.
Proof. split; reflexivity. Qed.

(** An agent without task and without [system_access]: the loop is not
    entered, there is one round trip. *)
Example no_task_one_turn :
  let r := run_async (with_model 3 idle) (agent_of [] false) None [] empty_world in
  fst r = Return [] /\ length (run_log (snd r)) = 1%nat.
Proof. split; reflexivity. Qed.

(** [run_agent]: the three ends of a single task. *)
Example run_agent_completed :
  fst (run_agent (with_model 3 (calling [("complete_task_1", mkArgs [] [("result", VStr "5")])]))
         (Some "sum 2 and 3") None None None VNone
         (mkAgentKwargs None [] None None) empty_world)
  = Return (VStr "5").
Proof. reflexivity. Qed.

Example run_agent_still_pending :
  let r := run_agent (with_model 3 idle) (Some "sum 2 and 3") None None None VNone
             (mkAgentKwargs None [] None None) empty_world in
  fst r = Return VNone
  /\ map status (task_objects (snd r)) = [PENDING]
  /\ length (run_log (snd r)) = 4%nat.
Proof. repeat split. Qed.

(** A tool object that the agent was given is wrapped again by every
    turn: after two turns its function is under two wrappers. *)
Example given_tool_wrapped_every_turn :
  let w := mkWorld [task "t" TyInt] [mkFunction "echo" None (Fn_def "echo")]
                   [] [] [] None [] [] in
  let self := mkAgent [0%nat] the_flow the_assistant
                      [ToolObject (FunctionTool 0)] [] false false None in
  let r := run_async (with_model 1 idle) self None [] w in
  length (run_log (snd r)) = 2%nat
  /\ _python_fn <$> tool_objects (snd r) !! 0%nat = Some (wraps 2 0 (Fn_def "echo")).
Proof. split; reflexivity. Qed.

(** The instructions follow the list of instructions of the ambient
    context. *)
Example instructions_follow_ambient_context :
  let E := with_model 3 idle in
  let w := one_task "sum 2 and 3" TyInt in
  let w' := mkWorld (task_objects w) [] [] [] [] None ["Be brief."] [] in
  _get_instructions E (agent_of [0%nat] false) None w
  <> _get_instructions E (agent_of [0%nat] false) None w'.
Proof. intros E w w' H. vm_compute in H. discriminate H. Qed.

End Examples.

(** * Further properties *)

(** * Further properties *)

(** ** Strings and dictionaries *)






Lemma dict_get_del_eq k d : dict_get k (dict_del k d) = None.
Proof.
  induction d as [|[k0 v0] d IH]; simpl; [reflexivity|].
  destruct (String.eqb_spec k k0) as [->|Hne]; simpl; [exact IH|].
  destruct (String.eqb_spec k k0); [contradiction|exact IH].
Qed.

Lemma dict_get_del_ne k k' d :
  k <> k' -> dict_get k (dict_del k' d) = dict_get k d.
Proof.
  intros Hne. induction d as [|[k0 v0] d IH]; simpl; [reflexivity|].
  destruct (String.eqb_spec k' k0) as [->|Hk0]; simpl.
  - destruct (String.eqb_spec k k0); [congruence|exact IH].
  - destruct (String.eqb_spec k k0); [reflexivity|exact IH].
Qed.



(** ** [_name_from_objective] *)


(** ** More on [_get_tools] *)

Section MoreTools.

Variable E : Collaborators.



(** The function of an object that exists before the loop ends up under
    one wrapper for each time the object is listed. *)
Lemma final_tools_exact l : forall w r fn,
  tool_objects w !! r = Some fn ->
  tool_objects (snd (final_tools E l w)) !! r
  = Some (mkFunction (fn_name fn) (fn_description fn)
            (wraps (length (List.filter (is_ref r) l)) r (_python_fn fn))).
Proof.
  induction l as [|tool l IH]; intros w r fn Hfn.
  - simpl. rewrite Hfn. now destruct fn.
  - destruct (final_tool_spec E tool w) as (t & w1 & Ht & _).
    destruct (final_tools_spec E l w1) as (ts & w' & Hts & _).
    assert (H1 : tool_objects w1 !! r
                 = Some (mkFunction (fn_name fn) (fn_description fn)
                           (wraps (if is_ref r tool then 1 else 0) r
                                  (_python_fn fn)))).
    { pose proof (lookup_lt_Some _ _ _ Hfn) as Hlt.
      destruct tool as [[r'| |]|a|f]; simpl in Ht; injection Ht as <- <-; simpl.
      - destruct (Nat.eqb_spec r r') as [<-|Hne].
        + now rewrite list_lookup_alter_eq, Hfn.
        + rewrite list_lookup_alter_ne by congruence. rewrite Hfn.
          now destruct fn.
      - rewrite Hfn. now destruct fn.
      - rewrite Hfn. now destruct fn.
      - rewrite list_lookup_alter_ne by lia.
        rewrite lookup_app_l by exact Hlt. rewrite Hfn. now destruct fn.
      - rewrite list_lookup_alter_ne by lia.
        rewrite lookup_app_l by exact Hlt. rewrite Hfn. now destruct fn. }
    pose proof (IH w1 r _ H1) as H2. rewrite Hts in H2. simpl in H2.
    simpl final_tools. unfold bind at 1. rewrite Ht. unfold bind at 1.
    rewrite Hts. simpl snd. rewrite H2. simpl.
    rewrite wraps_add. do 3 f_equal.
    destruct (is_ref r tool); simpl; lia.
Qed.

End MoreTools.

Lemma added_tools_no_object self p :
  (forall t, p t = true -> is_object t = true) ->
  List.filter p (added_tools self) = [].
Proof.
  intros Hp. rewrite added_tools_eq, !List.filter_app.
  assert (Hf : forall l, Forall (fun t => is_object t = false) l ->
                         List.filter p l = []).
  { induction 1 as [|t l Ht _ IH]; simpl; [reflexivity|].
    destruct (p t) eqn:Hpt; [|exact IH].
    apply Hp in Hpt. congruence. }
  rewrite !Hf; [reflexivity| | |].
  - destruct (user_access self); repeat constructor.
  - unfold task_tools. induction (numbered_tasks self) as [|x l IH]; simpl;
      repeat constructor. exact IH.
  - destruct (tasks self); repeat constructor.
Qed.


(** X4.  A tool object that the agent is given (by its flow, in its own
    tools or by its assistant) is wrapped once more by every call of
    [_get_tools], once for each time it is listed: the wrappers of
    earlier turns stay in place. *)
Theorem get_tools_wraps_given_tool_again E self w r fn :
  tool_objects w !! r = Some fn ->
  exists ts w',
    _get_tools E self w = (Return ts, w')
    /\ tool_objects w' !! r
       = Some (mkFunction (fn_name fn) (fn_description fn)
                 (wraps (length (List.filter (is_ref r) (given_tools self))) r
                        (_python_fn fn))).
Proof.
  intros Hfn.
  destruct (get_tools_spec E self w) as (ts & w' & Hts & _).
  exists ts, w'. split; [exact Hts|].
  pose proof (final_tools_exact E (collect_tools self) w r fn Hfn) as H.
  unfold _get_tools in Hts. rewrite Hts in H. simpl in H. rewrite H.
  rewrite collect_tools_added, List.filter_app, length_app.
  rewrite (added_tools_no_object self (is_ref r)).
  - simpl. now rewrite Nat.add_0_r.
  - intros [[r'| |]|a|f]; simpl; congruence.
Qed.

Lemma get_tools_wraps_given_tool_again_witness :
  let E := Scenario.with_model 3 Scenario.idle in
  let fn := mkFunction "echo" None (Fn_def "echo") in
  let self :=
    mkAgent [] Scenario.the_flow Scenario.the_assistant
            [ToolObject (FunctionTool 0); ToolObject (FunctionTool 0)]
            [] false false None in
  let w := set_tool_objects (fun _ => [fn]) Scenario.empty_world in
  tool_objects w !! 0%nat = Some fn
  /\ exists ts w',
       _get_tools E self w = (Return ts, w')
       /\ tool_objects w' !! 0%nat
          = Some (mkFunction "echo" None (wraps 2 0 (Fn_def "echo"))).
Proof.
  intros E fn self w. split; [reflexivity|].
  apply (get_tools_wraps_given_tool_again E self w 0%nat fn). reflexivity.
Defined.

(** ** More on wrapped tools *)





(** ** More on a turn *)

(** X7.  A turn that returns has added exactly two JSON artifacts after
    whatever the round trip left: the messages of the run under the key
    ["messages"], then its steps under the key ["actions"].  A turn whose
    round trip raises adds none: it raises the same exception and leaves
    the artifacts as the round trip left them. *)
Theorem execute_openai_run_artifacts E self context_ run_kwargs w :
  exists req u0,
    task_objects u0 = task_objects w /\ artifacts u0 = artifacts w /\
    match Run_run_async E req u0, execute_openai_run E self context_ run_kwargs w with
    | (Return run, u), (Return (run', _), w') =>
        run' = run
        /\ artifacts w'
           = artifacts u
             ++ [ mkArtifact JsonArtifact "messages" (messages run)
                    (Some "All messages sent and received during the run.");
                  mkArtifact JsonArtifact "actions" (steps run)
                    (Some "All actions taken by the assistant during the run.") ]
        /\ task_objects w' = task_objects u
        /\ tool_objects w' = tool_objects u
    | (Raise e, u), (Raise e', w') =>
        e' = e /\ artifacts w' = artifacts u /\ task_objects w' = task_objects u
    | _, _ => False
    end.
Proof.
  destruct (execute_openai_run_unfold E self context_ run_kwargs w)
    as (ts & w1 & _ & Hd & Heq).
  simpl in Heq. rewrite Heq. eexists _, _.
  split; [|split];
    [| |destruct (Run_run_async E _ _) as [[run|e] u] eqn:Hrun; rewrite Hrun].
  - simpl. rewrite Hd. reflexivity.
  - simpl. rewrite Hd. reflexivity.
  - repeat split. simpl. now rewrite <- app_assoc.
  - repeat split.
Qed.

(** X8.  The request of a turn: the model is the entry [model] of the
    keyword arguments when there is one, whatever its value; otherwise
    the model of the assistant, or else of the flow, or else of the
    settings, an empty name counting as none.  The thread is the entry
    [thread] or else the thread of the flow.  Neither entry is among
    the keyword arguments that the run is given, and the instructions are
    those rendered before the turn. *)
Theorem execute_openai_run_request E self context_ run_kwargs w :
  exists req,
    run_log (snd (execute_openai_run E self context_ run_kwargs w))
    = run_log w ++ [req]
    /\ run_model req
       = match dict_get "model" run_kwargs with
         | Some v => v
         | None =>
             if opt_truthy (assistant_model (assistant self))
             then opt_val (assistant_model (assistant self))
             else if opt_truthy (flow_model (flow self))
                  then opt_val (flow_model (flow self))
                  else VStr (settings_assistant_model E)
         end
    /\ run_thread req
       = match dict_get "thread" run_kwargs with
         | Some v => ThreadValue v
         | None => ThreadOf (flow_thread (flow self))
         end
    /\ dict_get "model" (run_extra req) = None
    /\ dict_get "thread" (run_extra req) = None
    /\ (forall k, k <> "model" -> k <> "thread" ->
          dict_get k (run_extra req) = dict_get k run_kwargs)
    /\ run_instructions req = _get_instructions E self context_ w
    /\ run_assistant req = assistant self.
Proof.
  destruct (execute_openai_run_unfold E self context_ run_kwargs w)
    as (ts & w1 & _ & _ & Heq).
  simpl in Heq. rewrite Heq.
  exists (request_of E self context_ run_kwargs w ts). split.
  { destruct (Run_run_async E _ _) as [[run|e] u]; reflexivity. }
  unfold request_of. simpl. split.
  { destruct (dict_get "model" run_kwargs); [reflexivity|].
    unfold or_else.
    destruct (assistant_model (assistant self)) as [m|]; simpl;
      [destruct (negb (String.eqb m ""))|];
      try reflexivity;
      (destruct (flow_model (flow self)) as [m'|]; simpl;
       [destruct (negb (String.eqb m' ""))|]; reflexivity). }
  split.
  { rewrite dict_get_del_ne by discriminate.
    destruct (dict_get "thread" run_kwargs); reflexivity. }
  split.
  { rewrite dict_get_del_ne by discriminate. apply dict_get_del_eq. }
  split; [apply dict_get_del_eq|]. split; [|split; reflexivity].
  intros k Hm Ht. now rewrite !dict_get_del_ne by assumption.
Qed.

(** ** More on the run loop *)

Section MoreLoop.

Variable E : Collaborators.

Lemma run_async_log self context_ run_kwargs w :
  exists ts reqs,
    run_log (snd (run_async E self context_ run_kwargs w))
    = run_log w ++ request_of E self context_ run_kwargs w ts :: reqs
    /\ (length reqs <= Z.to_nat (max_agent_iterations E))%nat.
Proof.
  destruct (execute_openai_run_unfold E self context_ run_kwargs w)
    as (ts & w1 & _ & _ & Heq).
  simpl in Heq. exists ts. unfold run_async. unfold bind at 1. rewrite Heq.
  destruct (Run_run_async E _ _) as [[run|e] u].
  - unfold bind at 1. destruct (negb (system_access self)).
    + match goal with
      | |- context [run_loop E self context_ ?k 0 ?w0] =>
          destruct (run_loop_bounded E self context_
                      (Z.to_nat (max_agent_iterations E)) k 0 w0
                      ltac:(f_equal; lia)) as (reqs & Hlog & Hlen);
          destruct (run_loop E self context_ k 0 w0) as [[[]|e] w'] eqn:Hloop
      end; simpl in Hlog; exists reqs; simpl; rewrite Hlog; simpl;
        rewrite <- app_assoc; auto.
    + exists []. simpl. split; [reflexivity|lia].
  - exists []. simpl. split; [reflexivity|lia].
Qed.

(** When the loop returns, no task is PENDING or the budget is used up. *)
Lemma run_loop_stops self context_ n :
  forall run_kwargs counter w w',
    Z.to_nat (max_agent_iterations E - counter) = n ->
    run_loop E self context_ run_kwargs counter w = (Return tt, w') ->
    any_pending self w' = false
    \/ length (run_log w') = (length (run_log w) + n)%nat.
Proof.
  induction n as [|n IH]; intros run_kwargs counter w w' Hn;
    rewrite run_loop_while.
  - replace (counter <? max_agent_iterations E) with false
      by (symmetry; apply Z.ltb_ge; lia).
    rewrite andb_false_r. intros H. injection H as <-. right. lia.
  - destruct (any_pending self w) eqn:Hany.
    + replace (counter <? max_agent_iterations E) with true
        by (symmetry; apply Z.ltb_lt; lia).
      simpl.
      destruct (execute_openai_run_log E self context_ run_kwargs w) as [req Hreq].
      destruct (execute_openai_run E self context_ run_kwargs w)
        as [[[run k']|e] w0]; [|discriminate].
      simpl in Hreq. intros Hloop.
      destruct (IH k' (counter + 1) w0 w' ltac:(lia) Hloop) as [H|H];
        [now left|right].
      rewrite H, Hreq, length_app. simpl. lia.
    + simpl. intros H. injection H as <-. now left.
Qed.

(** The loop changes the task objects only through the round trips. *)
Lemma execute_openai_run_keeps (P : list AITask -> Prop) self context_ run_kwargs w :
  (forall req u,
     P (task_objects u) -> P (task_objects (snd (Run_run_async E req u)))) ->
  P (task_objects w) ->
  P (task_objects (snd (execute_openai_run E self context_ run_kwargs w))).
Proof.
  intros Hkeep HP.
  destruct (execute_openai_run_unfold E self context_ run_kwargs w)
    as (ts & w1 & _ & Hd & Heq).
  simpl in Heq. rewrite Heq.
  match goal with
  | |- context [Run_run_async E ?req ?u] =>
      pose proof (Hkeep req u) as H; destruct (Run_run_async E req u) as [[run|e] u']
  end; simpl in *; apply H; rewrite Hd; exact HP.
Qed.

Lemma run_loop_keeps (P : list AITask -> Prop) self context_ n :
  (forall req u,
     P (task_objects u) -> P (task_objects (snd (Run_run_async E req u)))) ->
  forall run_kwargs counter w,
    Z.to_nat (max_agent_iterations E - counter) = n ->
    P (task_objects w) ->
    P (task_objects (snd (run_loop E self context_ run_kwargs counter w))).
Proof.
  intros Hkeep. induction n as [|n IH]; intros run_kwargs counter w Hn HP;
    rewrite run_loop_while.
  - replace (counter <? max_agent_iterations E) with false
      by (symmetry; apply Z.ltb_ge; lia).
    rewrite andb_false_r. exact HP.
  - destruct (any_pending self w && (counter <? max_agent_iterations E));
      [|exact HP].
    pose proof (execute_openai_run_keeps P self context_ run_kwargs w Hkeep HP)
      as H0.
    destruct (execute_openai_run E self context_ run_kwargs w)
      as [[[run k']|e] w0]; simpl in H0; [|exact H0].
    apply IH; [lia|exact H0].
Qed.

End MoreLoop.

(** X9.  Whatever the agent and the model do, [run_async] makes at least
    one and at most [1 + max_agent_iterations] model invocations (one when
    the budget is zero or negative), and it only adds to the log: the
    first request it adds is that of the entry turn. *)
Theorem run_async_invocations_bounded E self context_ run_kwargs w :
  exists req reqs,
    run_log (snd (run_async E self context_ run_kwargs w))
    = run_log w ++ req :: reqs
    /\ run_instructions req = _get_instructions E self context_ w
    /\ (1 <= length (req :: reqs) <= 1 + Z.to_nat (max_agent_iterations E))%nat.
Proof.
  destruct (run_async_log E self context_ run_kwargs w) as (ts & reqs & Hlog & Hlen).
  eexists _, reqs. split; [exact Hlog|]. split; [reflexivity|]. simpl. lia.
Qed.

(** X10.  When [run_async] returns for an agent with
    [system_access = False], either no task of the agent is PENDING any
    more, or the budget is used up: exactly
    [1 + max_agent_iterations] invocations were made. *)
Theorem run_async_stops_for_a_reason E self context_ run_kwargs w v w' :
  system_access self = false ->
  run_async E self context_ run_kwargs w = (Return v, w') ->
  any_pending self w' = false
  \/ length (run_log w')
     = (length (run_log w) + 1 + Z.to_nat (max_agent_iterations E))%nat.
Proof.
  intros Hsys. unfold run_async. unfold bind at 1.
  destruct (execute_openai_run_log E self context_ run_kwargs w) as [req Hreq].
  destruct (execute_openai_run E self context_ run_kwargs w)
    as [[r|e] w0]; [|discriminate].
  simpl in Hreq. rewrite Hsys. simpl. unfold bind at 1.
  destruct (run_loop E self context_ (snd r) 0 w0) as [[[]|e] w1] eqn:Hloop;
    [|discriminate].
  unfold bind, get, ret. intros H. injection H as _ <-.
  destruct (run_loop_stops E self context_ (Z.to_nat (max_agent_iterations E))
              (snd r) 0 w0 w1 ltac:(f_equal; lia) Hloop) as [H|H];
    [now left|right].
  rewrite H, Hreq, length_app. simpl. lia.
Qed.

Lemma run_async_stops_for_a_reason_witness :
  let E := Scenario.with_model 3
             (Scenario.calling [("fail_task_1", mkArgs [] [("message", VStr "no data")])]) in
  let self := Scenario.agent_of [0%nat] false in
  let w := Scenario.one_task "sum 2 and 3" TyInt in
  let w' := snd (run_async E self None [] w) in
  (system_access self = false
   /\ run_async E self None [] w = (Return [], w'))
  /\ (any_pending self w' = false
      \/ length (run_log w')
         = (length (run_log w) + 1 + Z.to_nat (max_agent_iterations E))%nat).
Proof.
  intros E self w w'.
  assert (Hrun : run_async E self None [] w = (Return [], w'))
    by (vm_compute; reflexivity).
  split; [split; [reflexivity|exact Hrun]|].
  apply (run_async_stops_for_a_reason E self None [] w [] w');
    [reflexivity|exact Hrun].
Defined.

(** X11.  The loop is not entered when the entry turn leaves no task
    PENDING (all tasks resolved, or no task at all), nor when the budget
    is zero or negative: [run_async] then returns after that one
    invocation, with the results of the tasks COMPLETED by it. *)
Theorem run_async_stops_after_entry_turn E self context_ run_kwargs w r w1 :
  execute_openai_run E self context_ run_kwargs w = (Return r, w1) ->
  any_pending self w1 = false \/ max_agent_iterations E <= 0 ->
  run_async E self context_ run_kwargs w
  = (Return (completed_results self w1), w1)
  /\ length (run_log w1) = S (length (run_log w)).
Proof.
  intros Hex Hstop. split.
  - unfold run_async. unfold bind at 1. rewrite Hex.
    destruct (negb (system_access self)); [|reflexivity].
    unfold bind at 1. rewrite run_loop_while.
    assert (Hc : any_pending self w1 && (0 <? max_agent_iterations E) = false).
    { destruct Hstop as [->|H]; [reflexivity|].
      apply andb_false_iff. right. apply Z.ltb_ge. lia. }
    rewrite Hc. reflexivity.
  - destruct (execute_openai_run_log E self context_ run_kwargs w) as [req Hreq].
    rewrite Hex in Hreq. simpl in Hreq. rewrite Hreq, length_app. simpl. lia.
Qed.

Lemma run_async_stops_after_entry_turn_witness :
  let E := Scenario.with_model 0 Scenario.idle in
  let self := Scenario.agent_of [0%nat] false in
  let w := Scenario.one_task "sum 2 and 3" TyInt in
  let w1 := snd (execute_openai_run E self None [] w) in
  (execute_openai_run E self None [] w = (Return (mkRun [] [], []), w1)
   /\ (any_pending self w1 = false \/ max_agent_iterations E <= 0))
  /\ run_async E self None [] w = (Return (completed_results self w1), w1)
  /\ length (run_log w1) = S (length (run_log w)).
Proof.
  intros E self w w1.
  assert (Hex : execute_openai_run E self None [] w
                = (Return (mkRun [] [], []), w1))
    by (vm_compute; reflexivity).
  assert (Hmax : max_agent_iterations E <= 0) by (simpl; lia).
  split; [split; [exact Hex|right; exact Hmax]|].
  apply (run_async_stops_after_entry_turn E self None [] w (mkRun [] [], []) w1);
    [exact Hex|right; exact Hmax].
Defined.

(** X12.  [run_async] itself never touches a task object: what holds of
    the task objects before the run and is kept by every model round trip
    holds after the run.  So the run creates and deletes no task, and a
    status changes only in a round trip. *)
Theorem run_async_keeps_task_invariants E (P : list AITask -> Prop)
  self context_ run_kwargs w :
  (forall req u,
     P (task_objects u) -> P (task_objects (snd (Run_run_async E req u)))) ->
  P (task_objects w) ->
  P (task_objects (snd (run_async E self context_ run_kwargs w))).
Proof.
  intros Hkeep HP. unfold run_async. unfold bind at 1.
  pose proof (execute_openai_run_keeps E P self context_ run_kwargs w Hkeep HP)
    as H0.
  destruct (execute_openai_run E self context_ run_kwargs w) as [[r|e] w0];
    simpl in H0; [|exact H0].
  unfold bind at 1. destruct (negb (system_access self)).
  - pose proof (run_loop_keeps E P self context_
                  (Z.to_nat (max_agent_iterations E)) Hkeep (snd r) 0 w0
                  ltac:(f_equal; lia) H0) as H1.
    destruct (run_loop E self context_ (snd r) 0 w0) as [[[]|e] w1];
      simpl in H1; exact H1.
  - exact H0.
Qed.

Lemma run_async_keeps_task_invariants_witness :
  let E := Scenario.with_model 3 Scenario.idle in
  let P := fun ts : list AITask => length ts = 1%nat in
  let self := Scenario.agent_of [0%nat] false in
  let w := Scenario.one_task "sum 2 and 3" TyInt in
  ((forall req u,
      P (task_objects u) -> P (task_objects (snd (Run_run_async E req u))))
   /\ P (task_objects w))
  /\ P (task_objects (snd (run_async E self None [] w))).
Proof.
  intros E P self w.
  assert (Hkeep : forall req u,
             P (task_objects u) -> P (task_objects (snd (Run_run_async E req u))))
    by (intros req u H; exact H).
  split; [split; [exact Hkeep|reflexivity]|].
  apply (run_async_keeps_task_invariants E P self None [] w);
    [exact Hkeep|reflexivity].
Defined.

(** ** [talk_to_human] *)

(** X13.  [talk_to_human] prints the message.  Called without
    [get_response], it then prints the prompt and waits for a reply: it
    takes exactly one line of the input and returns it, and raises
    [EOFError] when the input is at its end.  Called with
    [get_response=False], it reads nothing and returns the confirmation. *)
Theorem talk_to_human_reads_one_line E message w :
  call E Fn_talk_to_human (mkArgs [message] []) w
  = match stdin w with
    | [] => (Raise EOFError, print "> " (print (str_of E message) w))
    | reply :: rest =>
        (Return (VStr reply),
         set_stdin rest (print "> " (print (str_of E message) w)))
    end
  /\ call E Fn_talk_to_human (mkArgs [message] [("get_response", VBool false)]) w
     = (Return (VStr "Message sent to user"), print (str_of E message) w)
  /\ call E Fn_talk_to_human
          (mkArgs [] [("get_response", VBool false); ("message", message)]) w
     = (Return (VStr "Message sent to user"), print (str_of E message) w)
  /\ call E Fn_talk_to_human (mkArgs [] []) w = (Raise type_error, w).
Proof.
  repeat split. simpl. unfold talk_to_human, bind, modify, get, throw, ret.
  simpl. destruct (stdin w); reflexivity.
Qed.

(** ** More on [run_agent] and on the construction of agents *)

Section MoreRunAgent.

Variable E : Collaborators.

(** X14.  [run_agent] passes its [model] on as a keyword argument even
    when it is [None]: the first model invocation is asked for the model
    that the caller of [run_agent] gave, and the models of the assistant,
    of the flow and of the settings are not consulted for it. *)
Theorem run_agent_first_request_model task cast context_ user_access_ model
  agent_kwargs w :
  exists req reqs,
    run_log (snd (run_agent E task cast context_ user_access_ model agent_kwargs w))
    = run_log w ++ req :: reqs
    /\ run_model req = model.
Proof.
  unfold run_agent. unfold bind at 1. unfold get at 1.
  set (cast' := match cast with Some c => c | None => _ end).
  assert (Hnew : forall w0 : World, exists ai_tasks w1,
             (if opt_truthy task
              then t <- new_AITask (default "" task) context_ cast' ;; ret [t]
              else ret []) w0 = (Return ai_tasks, w1)
             /\ run_log w1 = run_log w0).
  { intros w0. destruct (opt_truthy task); eexists _, _; split; reflexivity. }
  destruct (Hnew w) as (ai_tasks & w1 & Hnew1 & Hlog1).
  unfold bind at 1. rewrite Hnew1. unfold bind at 1. unfold get at 1.
  set (agent := new_Agent E _ w1).
  destruct (run_async_log E agent None [("model", model)] w1)
    as (ts & reqs & Hlog & _).
  exists (request_of E agent None [("model", model)] w1 ts), reqs.
  split; [|reflexivity].
  rewrite <- Hlog1, <- Hlog. unfold bind at 1.
  destruct (run_async E agent None [("model", model)] w1) as [[v|e] w2];
    [|reflexivity].
  destruct ai_tasks as [|t0 l]; [reflexivity|].
  unfold bind at 1. unfold get at 1.
  destruct (task_get w2 t0) as [t|]; [|reflexivity].
  destruct (status t); reflexivity.
Qed.

(** X15.  [run_agent] without a task, or with the empty string for task,
    creates no task object and runs an agent without tasks, which is
    given the [end_run] tool.  It returns [None] when the run returns,
    whatever the run returned, and raises what the run raises. *)
Theorem run_agent_without_task task cast context_ user_access_ model
  agent_kwargs w :
  opt_truthy task = false ->
  let agent :=
    new_Agent E (mkAgentArgs [] (ctx_flow w) (kw_assistant agent_kwargs)
                             (kw_tools agent_kwargs) None user_access_
                             (kw_system_access agent_kwargs)
                             (kw_instructions agent_kwargs)) w in
  run_agent E task cast context_ user_access_ model agent_kwargs w
  = (match run_async E agent None [("model", model)] w with
     | (Return _, w') => (Return VNone, w')
     | (Raise e, w') => (Raise e, w')
     end)
  /\ List.filter is_end_run (added_tools agent) = [ToolCallable Fn_end_run]
  /\ List.filter is_complete (added_tools agent) = [].
Proof.
  intros Htask agent. split; [|split].
  - unfold run_agent. rewrite Htask. unfold bind, get, ret. fold agent.
    destruct (run_async E agent None [("model", model)] w) as [[v|e] w'];
      reflexivity.
  - rewrite added_end_run. reflexivity.
  - pose proof (added_complete agent) as H. simpl in H.
    destruct (List.filter is_complete (added_tools agent)); [reflexivity|].
    discriminate.
Qed.

End MoreRunAgent.

Lemma run_agent_without_task_witness :
  let E := Scenario.with_model 3 Scenario.idle in
  let kwargs := mkAgentKwargs None [] None None in
  let w := Scenario.empty_world in
  let agent :=
    new_Agent E (mkAgentArgs [] (ctx_flow w) (kw_assistant kwargs)
                             (kw_tools kwargs) None None
                             (kw_system_access kwargs)
                             (kw_instructions kwargs)) w in
  opt_truthy (Some "") = false
  /\ run_agent E (Some "") None None None VNone kwargs w
     = (match run_async E agent None [("model", VNone)] w with
        | (Return _, w') => (Return VNone, w')
        | (Raise e, w') => (Raise e, w')
        end)
  /\ List.filter is_end_run (added_tools agent) = [ToolCallable Fn_end_run]
  /\ List.filter is_complete (added_tools agent) = [].
Proof.
  intros E kwargs w agent. split; [reflexivity|].
  apply (run_agent_without_task E (Some "") None None None VNone kwargs w).
  reflexivity.
Defined.

(** ** The decorator [ai_task] *)





Section MoreDecorator.

Variable E : Collaborators.



End MoreDecorator.



(** ** [AgentHandler] *)

Section MoreHandler.

Import Handler.

Variable reindent : string -> option string.


Lemma created_in_flow_run tool_call s fr :
  flow_run s = Some fr ->
  let run :=
    mkTaskRun (length (task_runs s)) (task_run_name tool_call) ["tool-call"] fr
              (tc_id tool_call) Running in
  on_tool_call_created tool_call s
  = (Return tt,
     mkState (<[tc_id tool_call := run]> (tool_calls s)) (Some fr)
             (task_runs s ++ [run]) (run_artifacts s)).
Proof.
  intros Hf run. unfold on_tool_call_created, bind, get, create_task_run, modify.
  rewrite Hf. simpl. rewrite Hf. reflexivity.
Qed.

Lemma done_of_known_call tool_call s task_run :
  tool_calls s !! tc_id tool_call = Some task_run ->
  on_tool_call_done reindent tool_call s
  = (done_outcome reindent tool_call,
     mkState (tool_calls s) (flow_run s)
             (alter mark_completed (tr_id task_run) (task_runs s))
             (run_artifacts s ++ done_artifacts reindent tool_call (tr_id task_run))).
Proof.
  intros Hc. unfold on_tool_call_done. unfold bind at 1. unfold get at 1.
  rewrite Hc. unfold done_outcome, done_artifacts.
  destruct (String.eqb_spec (tc_type tool_call) "code_interpreter") as [Hci|Hci].
  - rewrite Hci. unfold bind, set_task_run_state, create_artifact, modify.
    simpl. rewrite <- app_assoc. reflexivity.
  - destruct (String.eqb (tc_type tool_call) "function").
    + destruct (reindent (function_arguments tool_call));
        unfold bind, set_task_run_state, create_artifact, modify, throw; simpl;
        rewrite ?app_nil_r; reflexivity.
    + unfold bind, set_task_run_state, modify, ret. simpl.
      rewrite app_nil_r. reflexivity.
Qed.

Lemma then_after {S A B} (c : M S A) (k : M S B) s a s1 :
  c s = (Return a, s1) -> (c ;;; k) s = k s1.
Proof. intros H. unfold bind. now rewrite H. Qed.

Lemma done_of_unknown_call tool_call s :
  tool_calls s !! tc_id tool_call = None ->
  on_tool_call_done reindent tool_call s = (Return tt, s).
Proof.
  intros H. unfold on_tool_call_done, bind, get. rewrite H. reflexivity.
Qed.

(** X18.  Outside a flow run, [on_tool_call_created] records nothing, so
    that the end of the same tool call does nothing either: no task run,
    no artifact. *)
Theorem tool_call_outside_flow_run tool_call s :
  flow_run s = None ->
  tool_calls s !! tc_id tool_call = None ->
  (on_tool_call_created tool_call ;;; on_tool_call_done reindent tool_call) s
  = (Return tt, s).
Proof.
  intros Hf Hc. rewrite (then_after _ _ s tt s).
  - unfold on_tool_call_done, bind, get. rewrite Hc. reflexivity.
  - unfold on_tool_call_created, bind, get. rewrite Hf. reflexivity.
Qed.



(** X21.  Neither callback forgets anything: a tool call that is recorded
    stays recorded, the flow run is the same, no task run is removed, a
    task run keeps its identifier and its name and stays [Completed] once
    it is, and artifacts are only added. *)
Theorem handler_only_adds tool_call s :
  let after (s' : State) :=
    (forall id, is_Some (tool_calls s !! id) -> is_Some (tool_calls s' !! id))
    /\ flow_run s' = flow_run s
    /\ (forall i r, task_runs s !! i = Some r ->
          exists r', task_runs s' !! i = Some r'
                     /\ tr_id r' = tr_id r /\ tr_name r' = tr_name r
                     /\ (tr_state r = Completed -> tr_state r' = Completed))
    /\ exists arts, run_artifacts s' = run_artifacts s ++ arts in
  after (snd (on_tool_call_created tool_call s))
  /\ after (snd (on_tool_call_done reindent tool_call s)).
Proof.
  intros after. subst after. cbv beta. split.
  - destruct (flow_run s) as [fr|] eqn:Hf.
    + rewrite (created_in_flow_run tool_call s fr Hf). simpl. split.
      { intros id Hid.
        destruct (decide (tc_id tool_call = id)) as [<-|Hne].
        - rewrite lookup_insert_eq. eauto.
        - now rewrite lookup_insert_ne. }
      split; [reflexivity|]. split.
      { intros i r Hi. exists r. split; [now apply lookup_app_l_Some|auto]. }
      exists []. now rewrite app_nil_r.
    + unfold on_tool_call_created, bind, get. rewrite Hf. simpl.
      split; [auto|]. split; [exact Hf|]. split; [eauto 10|].
      exists []. now rewrite app_nil_r.
  - destruct (tool_calls s !! tc_id tool_call) as [task_run|] eqn:Hc.
    + rewrite (done_of_known_call tool_call s task_run Hc). simpl.
      split; [auto|]. split; [reflexivity|]. split; [|eauto].
      intros i r Hi. destruct (decide (tr_id task_run = i)) as [<-|Hne].
      * rewrite list_lookup_alter_eq, Hi. simpl. eauto 10.
      * rewrite list_lookup_alter_ne by exact Hne. eauto 10.
    + rewrite done_of_unknown_call by exact Hc. simpl.
      split; [auto|]. split; [reflexivity|]. split; [eauto 10|].
      exists []. now rewrite app_nil_r.
Qed.

End MoreHandler.

Lemma tool_call_outside_flow_run_witness :
  let tool_call := Handler.mkToolCall "call_1" "function" "add" "{}" "" [] in
  let s := Handler.mkState ∅ None [] [] in
  (Handler.flow_run s = None
   /\ Handler.tool_calls s !! Handler.tc_id tool_call = None)
  /\ (Handler.on_tool_call_created tool_call ;;;
      Handler.on_tool_call_done Handler.two_documents tool_call) s
     = (Return tt, s).
Proof.
  intros tool_call s. split; [split; reflexivity|].
  apply (tool_call_outside_flow_run Handler.two_documents tool_call s);
    reflexivity.
Defined.


